(** * Parakeet ASR on SageMaker: request handling and provisioning

    A shallow embedding of the inference handlers ([serve.py],
    [inference.py]) and of the provisioning client ([deploy_parakeet.py]).

    Python values are modelled as follows.
    - [str] is [string]; a character with code 128 or more stands for a
      non-ASCII character.
    - [bytes] is [list byte].
    - a parsed JSON document is a [json] tree; a [dict] is an association
      list in insertion order, read with [dict_lookup].
    - time stamps and durations (Python floats) are exact rationals.
    - a statement that may raise is a computation [stmt S A] over a state
      [S]; it ends in [Ret v] or in [Exc msg], where [msg] is [str(e)] of
      the exception raised.  The handlers run over their [frame] (the file
      system and the local variable [temp_file]), the provisioning client
      over the log of what it asked of the cloud service.
    - the outside world (network, ASR model, temporary-file names, disk
      errors, the clock) is a record of oracles, [World]. *)

From Stdlib Require Import Strings.String Strings.Ascii Strings.Byte List.
From Stdlib Require Import NArith ZArith QArith QArith.Qround Lia Bool.
From Stdlib Require Import DecimalString.
From stdpp Require Import gmap strings.
Import ListNotations.

Local Open Scope list_scope.
Local Open Scope string_scope.

(** ** Outcomes of Python statements *)

Inductive outcome (A : Type) : Type :=
| Ret (a : A)
| Exc (msg : string).
Arguments Ret {A} a.
Arguments Exc {A} msg.

Definition is_ret {A} (o : outcome A) : bool :=
  match o with Ret _ => true | Exc _ => false end.

(** ** Python strings *)

Module Py.

(** [c in s] for a one-character string [c]. *)
Fixpoint contains (c : ascii) (s : string) : bool :=
  match s with
  | EmptyString => false
  | String x rest => if Ascii.eqb x c then true else contains c rest
  end.

(** [s.startswith(p)] *)
Definition startswith (s p : string) : bool := String.prefix p s.

(** [s.split(c, 1)]: at most one split, at the first occurrence of [c]. *)
Fixpoint split1 (c : ascii) (s : string) : list string :=
  match s with
  | EmptyString => [EmptyString]
  | String x rest =>
      if Ascii.eqb x c then [EmptyString; rest]
      else match split1 c rest with
           | hd :: tl => String x hd :: tl
           | [] => [String x EmptyString]
           end
  end.

(** [l[i]], raising [IndexError] out of range. *)
Definition index {A} (l : list A) (i : nat) : outcome A :=
  match nth_error l i with
  | Some x => Ret x
  | None => Exc "list index out of range"
  end.

(** Decimal rendering of a natural number, as [str(n)]. *)
Definition str_of_N (n : N) : string := NilEmpty.string_of_uint (N.to_uint n).

(** [s.encode('ascii')] succeeds only on characters below 128. *)
Definition is_ascii (c : ascii) : bool := (N_of_ascii c <? 128)%N.

Fixpoint all_ascii (s : string) : bool :=
  match s with
  | EmptyString => true
  | String c rest => is_ascii c && all_ascii rest
  end.

End Py.

(** ** The [base64] module of the Python standard library

    [b64encode] is RFC 4648 with the standard alphabet and padding;
    [b64decode] is the default, non-validating decoder: it is
    [binascii.a2b_base64] with [strict_mode] off, which skips every
    character outside the alphabet, stops at a complete pad sequence and
    raises [binascii.Error] when the data ends inside a quad. *)

Module Base64.

Definition alphabet : string :=
  "ABCDEFGHIJKLMNOPQRSTUVWXYZabcdefghijklmnopqrstuvwxyz0123456789+/".

Definition BASE64_PAD : ascii := "="%char.

(** [table_b2a_base64[i]] *)
Definition table_b2a (i : N) : ascii :=
  match String.get (N.to_nat i) alphabet with
  | Some c => c
  | None => BASE64_PAD
  end.

Fixpoint find_from (c : ascii) (s : string) (i : N) : option N :=
  match s with
  | EmptyString => None
  | String x rest => if Ascii.eqb x c then Some i else find_from c rest (i + 1)%N
  end.

(** [table_a2b_base64[c]]: the sextet of [c], [None] for the entries the
    C table marks as invalid. *)
Definition table_a2b (c : ascii) : option N := find_from c alphabet 0%N.

(** Store into an [unsigned char]. *)
Definition to_uchar (n : N) : byte :=
  match Byte.of_N (n mod 256)%N with
  | Some b => b
  | None => x00
  end.

Fixpoint b2a_base64 (data : list byte) : string :=
  match data with
  | [] => EmptyString
  | [x] =>
      let x := Byte.to_N x in
      String (table_b2a (N.shiftr x 2))
        (String (table_b2a (N.shiftl (N.land x 3) 4))
           (String BASE64_PAD (String BASE64_PAD EmptyString)))
  | [x; y] =>
      let x := Byte.to_N x in
      let y := Byte.to_N y in
      String (table_b2a (N.shiftr x 2))
        (String (table_b2a (N.lor (N.shiftl (N.land x 3) 4) (N.shiftr y 4)))
           (String (table_b2a (N.shiftl (N.land y 15) 2))
              (String BASE64_PAD EmptyString)))
  | x :: y :: z :: rest =>
      let x := Byte.to_N x in
      let y := Byte.to_N y in
      let z := Byte.to_N z in
      String (table_b2a (N.shiftr x 2))
        (String (table_b2a (N.lor (N.shiftl (N.land x 3) 4) (N.shiftr y 4)))
           (String (table_b2a (N.lor (N.shiftl (N.land y 15) 2) (N.shiftr z 6)))
              (String (table_b2a (N.land z 63)) (b2a_base64 rest))))
  end.

(** [base64.b64encode(data).decode()] *)
Definition b64encode (data : list byte) : string := b2a_base64 data.

(** The decoding loop of [binascii.a2b_base64]: [quad_pos] is the position
    inside the current group of four sextets, [leftchar] the bits not yet
    written, [pads] the pad characters seen since the last sextet. *)
Fixpoint a2b_loop (ascii_data : string) (quad_pos leftchar pads : N)
    (bin_data : list byte) : outcome (list byte) :=
  match ascii_data with
  | EmptyString =>
      if (quad_pos =? 0)%N then Ret bin_data
      else if (quad_pos =? 1)%N then
        Exc ("Invalid base64-encoded string: number of data characters ("
             ++ Py.str_of_N (N.of_nat (length bin_data) / 3 * 4 + 1)
             ++ ") cannot be 1 more than a multiple of 4")
      else Exc "Incorrect padding"
  | String this_ch rest =>
      if Ascii.eqb this_ch BASE64_PAD then
        if (2 <=? quad_pos)%N then
          if (4 <=? quad_pos + (pads + 1))%N then Ret bin_data
          else a2b_loop rest quad_pos leftchar (pads + 1)%N bin_data
        else a2b_loop rest quad_pos leftchar pads bin_data
      else
        match table_a2b this_ch with
        | None => a2b_loop rest quad_pos leftchar pads bin_data
        | Some v =>
            match quad_pos with
            | 0%N => a2b_loop rest 1%N v 0%N bin_data
            | 1%N =>
                a2b_loop rest 2%N (N.land v 15) 0%N
                  (bin_data ++ [to_uchar (N.lor (N.shiftl leftchar 2) (N.shiftr v 4))])
            | 2%N =>
                a2b_loop rest 3%N (N.land v 3) 0%N
                  (bin_data ++ [to_uchar (N.lor (N.shiftl leftchar 4) (N.shiftr v 2))])
            | _ =>
                a2b_loop rest 0%N 0%N 0%N
                  (bin_data ++ [to_uchar (N.lor (N.shiftl leftchar 6) v)])
            end
        end
  end.

Definition a2b_base64 (s : string) : outcome (list byte) := a2b_loop s 0%N 0%N 0%N [].

(** [base64.b64decode(s)] for a [str] argument. *)
Definition b64decode (s : string) : outcome (list byte) :=
  if Py.all_ascii s then a2b_base64 s
  else Exc "string argument should contain only ASCII characters".

End Base64.

(** ** JSON documents and Python dictionaries *)

#[local] Unset Elimination Schemes.
Inductive json : Type :=
| JNull
| JBool (b : bool)
| JInt (n : Z)
| JFloat (q : Q)
| JStr (s : string)
| JArr (l : list json)
| JObj (o : list (string * json)).
#[local] Set Elimination Schemes.

Abbreviation dict := (list (string * json)).

(** [k in d] and [d[k]] *)
Fixpoint dict_lookup (k : string) (d : dict) : option json :=
  match d with
  | [] => None
  | (k', v) :: rest => if String.eqb k' k then Some v else dict_lookup k rest
  end.

Definition has_key (k : string) (d : dict) : bool :=
  match dict_lookup k d with Some _ => true | None => false end.

(** [d[k] = v]: replaces the value of an existing key, else appends. *)
Fixpoint dict_set (k : string) (v : json) (d : dict) : dict :=
  match d with
  | [] => [(k, v)]
  | (k', v') :: rest =>
      if String.eqb k' k then (k, v) :: rest else (k', v') :: dict_set k v rest
  end.

(** [del d[k]], when the key is there. *)
Fixpoint dict_remove (k : string) (d : dict) : dict :=
  match d with
  | [] => []
  | (k', v) :: rest =>
      if String.eqb k' k then rest else (k', v) :: dict_remove k rest
  end.

(** Truth value of a Python object, as tested by [if x] and [not x]. *)
Definition truthy (v : json) : bool :=
  match v with
  | JNull => false
  | JBool b => b
  | JInt n => negb (n =? 0)%Z
  | JFloat q => negb (Qnum q =? 0)%Z
  | JStr s => negb (String.eqb s EmptyString)
  | JArr l => match l with [] => false | _ => true end
  | JObj o => match o with [] => false | _ => true end
  end.

(** Python type names, for the text of an [AttributeError]. *)
Definition type_name (v : json) : string :=
  match v with
  | JNull => "NoneType"
  | JBool _ => "bool"
  | JInt _ => "int"
  | JFloat _ => "float"
  | JStr _ => "str"
  | JArr _ => "list"
  | JObj _ => "dict"
  end.

Definition attribute_error (v : json) (attr : string) : string :=
  "'" ++ type_name v ++ "' object has no attribute '" ++ attr ++ "'".

(** [round(x, 3)]: the nearest multiple of 1/1000, ties to even. *)
Definition round_half_even (q : Q) : Z :=
  let f := Qfloor q in
  let r := (q - inject_Z f)%Q in
  match (r ?= 1 # 2)%Q with
  | Lt => f
  | Gt => (f + 1)%Z
  | Eq => if Z.even f then f else (f + 1)%Z
  end.

Definition round3 (x : Q) : Q := (round_half_even (x * 1000) # 1000)%Q.

(** ** What the ASR model returns

    [model.transcribe([path])] returns one entry per path; [asr_output]
    is that entry, [output[0]].  A NeMo hypothesis carries the attributes
    [text] and [timestamp]; older releases return a bare string, which has
    neither.  The [timestamp] attribute is [None] or a dictionary from a
    level name (["word"], ["segment"], ...) to the spans of that level. *)

Record word_span : Type := { word : string; start : Q; end_ : Q }.

Record asr_output : Type := {
  as_str : string;                                        (* str(output[0]) *)
  text : option string;                                   (* attribute [text], if any *)
  timestamp : option (option (list (string * list word_span)))
                                                          (* attribute [timestamp], if any *)
}.

Fixpoint spans_lookup (k : string) (d : list (string * list word_span))
    : option (list word_span) :=
  match d with
  | [] => None
  | (k', v) :: rest => if String.eqb k' k then Some v else spans_lookup k rest
  end.

(** ** The outside world *)

Record World : Type := {
  (** [requests.get(url, timeout=t)], [raise_for_status()], [.content] *)
  requests_get : string -> Z -> outcome (list byte);
  (** the random part of the name [NamedTemporaryFile] picks *)
  tmp_stem : string;
  (** [f.write(data)] on the temporary file: [Some msg] when it raises *)
  write_error : list byte -> option string;
  (** the model on the audio stored in the file it is given *)
  transcribe : list byte -> bool -> outcome asr_output;
  (** the two readings of [time.time()] *)
  time_start : Q;
  time_end : Q
}.

(** The same world with other clock readings. *)
Definition set_clock (w : World) (t0 t1 : Q) : World :=
  {| requests_get := requests_get w;
     tmp_stem := tmp_stem w;
     write_error := write_error w;
     transcribe := transcribe w;
     time_start := t0;
     time_end := t1 |}.

(** The name [NamedTemporaryFile] gives the file of a request. *)
Definition temp_name (w : World) (suffix : string) : string :=
  "/tmp/tmp" ++ tmp_stem w ++ suffix.

(** ** Statements that may raise

    A Python statement over a state [S]: it ends in a value or in an
    exception, and leaves a state behind either way. *)

Definition stmt (S A : Type) : Type := S -> outcome A * S.

Definition ret {S A} (a : A) : stmt S A := fun s => (Ret a, s).
Definition raise {S A} (msg : string) : stmt S A := fun s => (Exc msg, s).
Definition lift {S A} (o : outcome A) : stmt S A := fun s => (o, s).

Definition bind {S A B} (m : stmt S A) (f : A -> stmt S B) : stmt S B :=
  fun s =>
    match m s with
    | (Ret a, s') => f a s'
    | (Exc e, s') => (Exc e, s')
    end.

Notation "x <- m ;; k" := (bind m (fun x => k))
  (at level 62, m at next level, right associativity).
Notation "m ;;; k" := (bind m (fun _ => k))
  (at level 62, right associativity).

(** [try: body / except Exception as e: handler e] *)
Definition try_except {S A} (body : stmt S A) (handler : string -> stmt S A) : stmt S A :=
  fun s =>
    match body s with
    | (Ret a, s') => (Ret a, s')
    | (Exc e, s') => handler e s'
    end.

(** [try: body / finally: fin]: [fin] always runs; the outcome of [body]
    stands unless [fin] itself raises. *)
Definition try_finally {S A} (body : stmt S A) (fin : stmt S unit) : stmt S A :=
  fun s =>
    match body s with
    | (r, s') =>
        match fin s' with
        | (Ret _, s'') => (r, s'')
        | (Exc e, s'') => (Exc e, s'')
        end
    end.

(** ** The handler's frame *)

Record frame : Type := {
  files : gmap string (list byte);      (* the file system *)
  temp_file : option string             (* the local variable [temp_file] *)
}.

Abbreviation M := (stmt frame).

(** The frame a handler starts in. *)
Definition frame0 (fs : gmap string (list byte)) : frame :=
  {| files := fs; temp_file := None |}.

(** *** File-system primitives *)

(** [with open(path, "rb") as f: f.read()] *)
Definition open_read (path : string) : M (list byte) :=
  fun s =>
    match files s !! path with
    | Some data => (Ret data, s)
    | None => (Exc ("[Errno 2] No such file or directory: '" ++ path ++ "'"), s)
    end.

(** [tempfile.NamedTemporaryFile(suffix=suffix, delete=False)]: the file
    is created, empty, and stays on disk when it is closed. *)
Definition NamedTemporaryFile (w : World) (suffix : string) : M string :=
  fun s =>
    let name := temp_name w suffix in
    (Ret name, {| files := <[name := []]> (files s); temp_file := temp_file s |}).

(** [f.write(data)] *)
Definition file_write (w : World) (name : string) (data : list byte) : M unit :=
  fun s =>
    match write_error w data with
    | Some msg => (Exc msg, s)
    | None => (Ret tt, {| files := <[name := data]> (files s); temp_file := temp_file s |})
    end.

(** [temp_file = name] *)
Definition set_temp_file (name : string) : M unit :=
  fun s => (Ret tt, {| files := files s; temp_file := Some name |}).

Definition get_temp_file : M (option string) :=
  fun s => (Ret (temp_file s), s).

(** [os.path.exists(path)] *)
Definition os_path_exists (path : string) : M bool :=
  fun s => (Ret (bool_decide (is_Some (files s !! path))), s).

(** [os.unlink(path)] *)
Definition os_unlink (path : string) : M unit :=
  fun s =>
    match files s !! path with
    | Some _ => (Ret tt, {| files := delete path (files s); temp_file := temp_file s |})
    | None => (Exc ("[Errno 2] No such file or directory: '" ++ path ++ "'"), s)
    end.

(** [model.transcribe([path], timestamps=ts)[0]] *)
Definition model_transcribe (w : World) (path : string) (ts : bool) : M asr_output :=
  audio <- open_read path ;;
  lift (transcribe w audio ts).

(** [d.get(k, default)] on whatever [d] is *)
Definition py_get (d : json) (k : string) (default : json) : M json :=
  match d with
  | JObj o => ret (match dict_lookup k o with Some v => v | None => default end)
  | _ => raise (attribute_error d "get")
  end.

(** [s.startswith(p)] on whatever [s] is *)
Definition py_startswith (s : json) (p : string) : M bool :=
  match s with
  | JStr s => ret (Py.startswith s p)
  | _ => raise (attribute_error s "startswith")
  end.

(** The value of [input_data.get("timestamps", False)] on a request object. *)
Definition timestamps_of (o : dict) : json :=
  match dict_lookup "timestamps" o with Some v => v | None => JBool false end.

Definition MODEL_NAME : string := "nvidia/parakeet-tdt-0.6b-v2".

(** ** Audio ingestion

    The chain of type tests that turns the [audio] field into bytes:
    lines 78-106 of [serve.py] and 78-107 of [inference.py], which differ
    only in the time-out of the remote fetch.  The result is the final
    value of the variable [audio_data]: [None] when no branch assigns it. *)

Definition http_prefix (path : string) : bool :=
  Py.startswith path "http://" || Py.startswith path "https://".

Definition audio_from_source (w : World) (timeout : Z) (audio_source : json)
    : M (option (list byte)) :=
  match audio_source with
  | JStr audio_source =>
      if Py.startswith audio_source "data:" then
        base64_data <- (if Py.contains "," audio_source
                        then lift (Py.index (Py.split1 "," audio_source) 1)
                        else ret audio_source) ;;
        audio_data <- lift (Base64.b64decode base64_data) ;;
        ret (Some audio_data)
      else if Py.contains "/" audio_source || Py.contains "\" audio_source then
        audio_data <- open_read audio_source ;;
        ret (Some audio_data)
      else
        audio_data <- lift (Base64.b64decode audio_source) ;;
        ret (Some audio_data)
  | JObj audio_source =>
      match dict_lookup "data" audio_source with
      | Some (JStr base64_data) =>
          base64_data <- (if Py.startswith base64_data "data:"
                          then lift (Py.index (Py.split1 "," base64_data) 1)
                          else ret base64_data) ;;
          audio_data <- lift (Base64.b64decode base64_data) ;;
          ret (Some audio_data)
      | Some v => raise (attribute_error v "startswith")
      | None =>
          match dict_lookup "path" audio_source with
          | Some (JStr path) =>
              if http_prefix path then
                audio_data <- lift (requests_get w path timeout) ;;
                ret (Some audio_data)
              else
                audio_data <- open_read path ;;
                ret (Some audio_data)
          | Some v => raise (attribute_error v "startswith")
          | None => ret None
          end
      end
  | _ => ret None
  end.

(** [output[0].text] and [output[0].timestamp] *)
Definition getattr_text (o : asr_output) : M string :=
  match text o with
  | Some t => ret t
  | None => raise "object has no attribute 'text'"
  end.

Definition getattr_timestamp (o : asr_output)
    : M (option (list (string * list word_span))) :=
  match timestamp o with
  | Some t => ret t
  | None => raise "object has no attribute 'timestamp'"
  end.

(** A word span as the dictionary [{"word": .., "start": .., "end": ..}]. *)
Definition word_entry (ws : word_span) : json :=
  JObj [("word", JStr (word ws)); ("start", JFloat (start ws)); ("end", JFloat (end_ ws))].

(** [if temp_file and os.path.exists(temp_file)] *)
Definition temp_file_to_remove : M (option string) :=
  temp_file <- get_temp_file ;;
  match temp_file with
  | Some name =>
      if negb (String.eqb name EmptyString) then
        there <- os_path_exists name ;;
        ret (if there then Some name else None)
      else ret None
  | None => ret None
  end.

(** ** [serve.py]: the Flask service *)

Module Serve.

Record Request : Type := {
  content_type : option string;     (* [request.content_type] *)
  get_json : outcome json           (* [request.get_json()] *)
}.

Record Response : Type := { body : dict; status : Z }.

Definition jsonify (d : dict) (code : Z) : Response := {| body := d; status := code |}.

Definition process_audio (w : World) (audio_source : json) : M (option (list byte)) :=
  try_except (audio_from_source w 60 audio_source) (fun _ => ret None).

(** A request with content type [application/json] and a parsed body. *)
Definition json_request (v : json) : Request :=
  {| content_type := Some "application/json"; get_json := Ret v |}.

Definition content_type_text (ct : option string) : string :=
  match ct with Some s => s | None => "None" end.

(** [request.content_type == "application/json"] *)
Definition is_json (ct : option string) : bool :=
  match ct with
  | Some s => String.eqb s "application/json"
  | None => false
  end.

(** The word list of the response: the spans under ["word"] when the
    hypothesis has a [timestamp] attribute that is true, else [[]]. *)
Definition word_list (output : asr_output) : list json :=
  match timestamp output with
  | Some (Some (entry :: more)) =>
      map word_entry
        (match spans_lookup "word" (entry :: more) with Some l => l | None => [] end)
  | _ => []
  end.

(** The body of the [try] block of [invoke]. *)
Definition invoke_try (w : World) (request : Request) : M Response :=
  if is_json (content_type request) then
      input_data <- lift (get_json request) ;;
      audio_source <- py_get input_data "audio" JNull ;;
      timestamps <- py_get input_data "timestamps" (JBool false) ;;
      language <- py_get input_data "language" (JStr "en") ;;
      if negb (truthy audio_source) then
        ret (jsonify [("error", JStr "Missing 'audio' field")] 400)
      else
        audio_data <- process_audio w audio_source ;;
        match audio_data with
        | None => ret (jsonify [("error", JStr "Failed to process audio data")] 400)
        | Some audio_data =>
            f <- NamedTemporaryFile w ".wav" ;;
            file_write w f audio_data ;;;
            set_temp_file f ;;;
            result <-
              (if truthy timestamps then
                 output <- model_transcribe w f true ;;
                 text <- getattr_text output ;;
                 ret [("text", JStr text);
                      ("timestamps", JObj [("word", JArr (word_list output))])]
               else
                 output <- model_transcribe w f false ;;
                 ret [("text", JStr (match text output with
                                     | Some t => t
                                     | None => as_str output
                                     end))]) ;;
            let processing_time := (time_end w - time_start w)%Q in
            let result := dict_set "processing_time" (JFloat (round3 processing_time)) result in
            let result := dict_set "model" (JStr MODEL_NAME) result in
            ret (jsonify result 200)
        end
  else
    ret (jsonify [("error", JStr ("Unsupported content type: "
                                  ++ content_type_text (content_type request)))] 415).

(** The [except Exception as e] clause. *)
Definition invoke_except (e : string) : M Response :=
  ret (jsonify [("error", JStr e)] 500).

(** The [finally] clause: the unlink is wrapped in [try/except: pass]. *)
Definition invoke_finally : M unit :=
  target <- temp_file_to_remove ;;
  match target with
  | Some name => try_except (os_unlink name) (fun _ => ret tt)
  | None => ret tt
  end.

(** [invoke()], run on a file system [fs]: the response or the exception
    that leaves the handler, and the file system it leaves behind. *)
Definition invoke (w : World) (request : Request) (fs : gmap string (list byte))
    : outcome Response * gmap string (list byte) :=
  let '(r, s) :=
    try_finally (try_except (invoke_try w request) invoke_except) invoke_finally
      (frame0 fs) in
  (r, files s).

(** A response without its [processing_time]. *)
Definition untimed (r : outcome Response) : outcome Response :=
  match r with
  | Ret resp => Ret {| body := dict_remove "processing_time" (body resp);
                       status := status resp |}
  | Exc e => Exc e
  end.

End Serve.

(** ** [inference.py]: the SageMaker handler functions *)

Module Inference.

(** The [timestamp] attribute passed through unchanged. *)
Definition raw_timestamp (t : option (list (string * list word_span))) : json :=
  match t with
  | None => JNull
  | Some d => JObj (map (fun kv => (fst kv, JArr (map word_entry (snd kv)))) d)
  end.

(** The body of the [try] block of [predict_fn]. *)
Definition predict_fn_try (w : World) (input_data : json) : M dict :=
  audio_source <- py_get input_data "audio" JNull ;;
  language <- py_get input_data "language" (JStr "en") ;;
  timestamps <- py_get input_data "timestamps" (JBool false) ;;
  if negb (truthy audio_source) then
    ret [("error", JStr "Missing 'audio' field")]
  else
    audio_data <- audio_from_source w 30 audio_source ;;
    match audio_data with
    | None => ret [("error", JStr "Failed to load audio")]
    | Some audio_data =>
        f <- NamedTemporaryFile w ".wav" ;;
        file_write w f audio_data ;;;
        set_temp_file f ;;;
        result <-
          (if truthy timestamps then
             output <- model_transcribe w f true ;;
             text <- getattr_text output ;;
             stamps <- getattr_timestamp output ;;
             ret [("text", JStr text); ("timestamps", raw_timestamp stamps)]
           else
             output <- model_transcribe w f false ;;
             ret [("text", JStr (match text output with
                                 | Some t => t
                                 | None => as_str output
                                 end))]) ;;
        let processing_time := (time_end w - time_start w)%Q in
        let result := dict_set "processing_time" (JFloat (round3 processing_time)) result in
        let result := dict_set "model" (JStr MODEL_NAME) result in
        ret result
    end.

Definition predict_fn_except (e : string) : M dict :=
  ret [("error", JStr e)].

(** The [finally] clause: the unlink is not guarded. *)
Definition predict_fn_finally : M unit :=
  target <- temp_file_to_remove ;;
  match target with
  | Some name => os_unlink name
  | None => ret tt
  end.

Definition predict_fn (w : World) (input_data : json) (fs : gmap string (list byte))
    : outcome dict * gmap string (list byte) :=
  let '(r, s) :=
    try_finally (try_except (predict_fn_try w input_data) predict_fn_except)
      predict_fn_finally (frame0 fs) in
  (r, files s).

(** A prediction without its [processing_time]. *)
Definition untimed (r : outcome dict) : outcome dict :=
  match r with
  | Ret d => Ret (dict_remove "processing_time" d)
  | Exc e => Exc e
  end.

End Inference.

(** ** [deploy_parakeet.py]: the provisioning client *)

Module Deploy.

Definition REGION : string := "us-east-1".
Definition ACCOUNT_ID : string := EmptyString.
Definition ROLE : string :=
  "arn:aws:iam::XXXXXX:role/service-role/AmazonSageMaker-ExecutionRole-20221214T123867".
Definition INSTANCE_TYPE : string := "ml.g6e.12xlarge".
Definition REPO_NAME : string := "parakeet-asr".
Definition IMAGE_URI : string :=
  ACCOUNT_ID ++ ".dkr.ecr." ++ REGION ++ ".amazonaws.com/" ++ REPO_NAME ++ ":latest".

(** [datetime.now()] *)
Record datetime : Type := {
  year : N; month : N; day : N; hour : N; minute : N; second : N
}.

(** A field printed with at least [width] digits, zero-padded. *)
Fixpoint zeros (n : nat) : string :=
  match n with
  | O => EmptyString
  | S n' => String "0" (zeros n')
  end.

Definition zero_padded (width : nat) (n : N) : string :=
  let digits := Py.str_of_N n in
  zeros (width - String.length digits) ++ digits.

(** [t.strftime("%Y-%m-%d-%H-%M-%S")] *)
Definition strftime (t : datetime) : string :=
  zero_padded 4 (year t) ++ "-" ++ zero_padded 2 (month t) ++ "-"
  ++ zero_padded 2 (day t) ++ "-" ++ zero_padded 2 (hour t) ++ "-"
  ++ zero_padded 2 (minute t) ++ "-" ++ zero_padded 2 (second t).

(** The requests sent to the SageMaker API. *)
Inductive call : Type :=
| CreateModel (ModelName Image ExecutionRoleArn : string)
| CreateEndpointConfig (EndpointConfigName ModelName InstanceType : string)
| CreateEndpoint (EndpointName EndpointConfigName : string)
| WaitEndpointInService (EndpointName : string) (Delay MaxAttempts : N)
| DescribeEndpoint (EndpointName : string)
| DescribeEndpointConfig (EndpointConfigName : string)
| DeleteEndpoint (EndpointName : string)
| WaitEndpointDeleted (EndpointName : string)
| DeleteEndpointConfig (EndpointConfigName : string)
| DeleteModel (ModelName : string).

(** What the client does that can be observed: a request, or a line on
    standard output. *)
Inductive event : Type :=
| Call (c : call)
| Print (line : string).

(** The service's answers.  [describe_endpoint] gives the
    ["EndpointConfigName"] of the reply, [describe_endpoint_config] the
    ["ModelName"] of each entry of ["ProductionVariants"]. *)
Record SageMaker : Type := {
  create_model : string -> outcome unit;
  create_endpoint_config : string -> string -> outcome unit;
  create_endpoint : string -> string -> outcome unit;
  wait_endpoint_in_service : string -> outcome unit;
  describe_endpoint : string -> outcome string;
  describe_endpoint_config : string -> outcome (list string);
  delete_endpoint : string -> outcome unit;
  wait_endpoint_deleted : string -> outcome unit;
  delete_endpoint_config : string -> outcome unit;
  delete_model : string -> outcome unit
}.

Abbreviation client := (stmt (list event)).

(** One request: it is logged, then answered. *)
Definition api {A} (c : call) (answer : outcome A) : client A :=
  fun log => (answer, (log ++ [Call c])%list).

Definition print (line : string) : client unit :=
  fun log => (Ret tt, (log ++ [Print line])%list).

(** The names [deploy] gives to the three resources. *)
Definition model_name (timestamp : string) : string := "parakeet-tdt-" ++ timestamp.
Definition endpoint_config_name (timestamp : string) : string := "parakeet-config-" ++ timestamp.
Definition endpoint_name (timestamp : string) : string := "parakeet-asr-" ++ timestamp.

(** ["=" * 50] and the characters that a string literal cannot hold. *)
Fixpoint repeat_char (c : ascii) (n : nat) : string :=
  match n with
  | O => EmptyString
  | S n' => String c (repeat_char c n')
  end.

Definition rule : string := repeat_char "=" 50.
Definition NL : string := String "010" EmptyString.
Definition QUOTE : string := String "034" EmptyString.

(** [deploy()], started at time [now].  No exception is caught: the first
    request that fails ends the deployment. *)
Definition deploy (sm : SageMaker) (now : datetime) : client string :=
  let timestamp := strftime now in
  let model_name := model_name timestamp in
  let endpoint_config_name := endpoint_config_name timestamp in
  let endpoint_name := endpoint_name timestamp in
  print rule ;;;
  print "Parakeet ASR - SageMaker 部署" ;;;
  print rule ;;;
  print ("Region: " ++ REGION) ;;;
  print ("Instance: " ++ INSTANCE_TYPE) ;;;
  print ("Image: " ++ IMAGE_URI) ;;;
  print ("Model name: " ++ model_name) ;;;
  print ("Endpoint: " ++ endpoint_name) ;;;
  print rule ;;;
  print (NL ++ "Step 1: 创建 SageMaker Model...") ;;;
  api (CreateModel model_name IMAGE_URI ROLE) (create_model sm model_name) ;;;
  print ("✓ Model created: " ++ model_name) ;;;
  print (NL ++ "Step 2: 创建 Endpoint Config...") ;;;
  api (CreateEndpointConfig endpoint_config_name model_name INSTANCE_TYPE)
      (create_endpoint_config sm endpoint_config_name model_name) ;;;
  print ("✓ Endpoint config created: " ++ endpoint_config_name) ;;;
  print (NL ++ "Step 3: 创建 Endpoint...") ;;;
  print "这需要 5-10 分钟，请耐心等待..." ;;;
  api (CreateEndpoint endpoint_name endpoint_config_name)
      (create_endpoint sm endpoint_name endpoint_config_name) ;;;
  print "等待端点状态变为 InService..." ;;;
  api (WaitEndpointInService endpoint_name 30 60)
      (wait_endpoint_in_service sm endpoint_name) ;;;
  print (NL ++ rule) ;;;
  print "✅ 部署完成！" ;;;
  print rule ;;;
  print ("Endpoint name: " ++ endpoint_name) ;;;
  print (NL ++ "测试命令:") ;;;
  print ("  修改 test_parakeet.py 中的 ENDPOINT_NAME = " ++ QUOTE ++ endpoint_name ++ QUOTE) ;;;
  print "  然后运行: python test_parakeet.py" ;;;
  print rule ;;;
  ret endpoint_name.

(** The body of the [try] block of [cleanup]. *)
Definition cleanup_try (sm : SageMaker) (endpoint_name : string) : client unit :=
  config_name <- api (DescribeEndpoint endpoint_name) (describe_endpoint sm endpoint_name) ;;
  variants <- api (DescribeEndpointConfig config_name)
                  (describe_endpoint_config sm config_name) ;;
  model_name <- lift (Py.index variants 0) ;;
  print ("删除 Endpoint: " ++ endpoint_name) ;;;
  api (DeleteEndpoint endpoint_name) (delete_endpoint sm endpoint_name) ;;;
  print "等待端点删除..." ;;;
  api (WaitEndpointDeleted endpoint_name) (wait_endpoint_deleted sm endpoint_name) ;;;
  print ("删除 Endpoint Config: " ++ config_name) ;;;
  api (DeleteEndpointConfig config_name) (delete_endpoint_config sm config_name) ;;;
  print ("删除 Model: " ++ model_name) ;;;
  api (DeleteModel model_name) (delete_model sm model_name) ;;;
  print "✅ 清理完成".

(** [cleanup(endpoint_name)].  Creating the client sends nothing and is
    left out. *)
Definition cleanup (sm : SageMaker) (endpoint_name : string) : client unit :=
  print ("清理端点: " ++ endpoint_name) ;;;
  try_except (cleanup_try sm endpoint_name) (fun e => print ("清理出错: " ++ e)).

(** The requests in a log, in order. *)
Fixpoint calls (log : list event) : list call :=
  match log with
  | [] => []
  | Call c :: rest => c :: calls rest
  | Print _ :: rest => calls rest
  end.



(** The range of the fields of a [datetime]. *)
Definition valid (t : datetime) : Prop :=
  (1 <= year t <= 9999)%N /\ (1 <= month t <= 12)%N /\ (1 <= day t <= 31)%N /\
  (hour t <= 23)%N /\ (minute t <= 59)%N /\ (second t <= 59)%N.

Definition is_digit (c : ascii) : bool :=
  (48 <=? N_of_ascii c)%N && (N_of_ascii c <=? 57)%N.

(** [s] has the shape of [pattern], in which ["d"] stands for a digit and
    any other character for itself. *)
Fixpoint has_shape (pattern s : string) : bool :=
  match pattern, s with
  | EmptyString, EmptyString => true
  | String p pattern', String c s' =>
      (if Ascii.eqb p "d" then is_digit c else Ascii.eqb p c) && has_shape pattern' s'
  | _, _ => false
  end.

(** The pattern [<prefix>-<model|config|endpoint>-<timestamp>], read with
    the three words as the tags of the names. *)
Definition tagged_by_kind (timestamp : string) (names : string * string * string) : Prop :=
  exists prefix,
    names = (prefix ++ "-model-" ++ timestamp,
             prefix ++ "-config-" ++ timestamp,
             prefix ++ "-endpoint-" ++ timestamp).

(** The moment 2026-11-03 17:26:05. *)
Definition sample_time : datetime :=
  {| year := 2026; month := 11; day := 3; hour := 17; minute := 26; second := 5 |}.

(** A service on which every request succeeds. *)
Definition obliging : SageMaker :=
  {| create_model := fun _ => Ret tt;
     create_endpoint_config := fun _ _ => Ret tt;
     create_endpoint := fun _ _ => Ret tt;
     wait_endpoint_in_service := fun _ => Ret tt;
     describe_endpoint := fun _ => Ret "parakeet-config-2026-11-03-17-26-05";
     describe_endpoint_config := fun _ => Ret ["parakeet-tdt-2026-11-03-17-26-05"];
     delete_endpoint := fun _ => Ret tt;
     wait_endpoint_deleted := fun _ => Ret tt;
     delete_endpoint_config := fun _ => Ret tt;
     delete_model := fun _ => Ret tt |}.

End Deploy.

(** ** Sample worlds and requests *)

Module Scenario.

Definition hello : asr_output :=
  {| as_str := "Hypothesis(text='hello')";
     text := Some "hello";
     timestamp := Some (Some [("word", [{| word := "hello"; start := 0; end_ := 1 # 2 |}])]) |}.

(** The model answers, the disk has room, the network is down. *)
Definition quiet : World :=
  {| requests_get := fun _ _ => Exc "Connection refused";
     tmp_stem := "k3v9";
     write_error := fun _ => None;
     transcribe := fun _ _ => Ret hello;
     time_start := 10;
     time_end := 10 + (12345 # 10000) |}.

(** The model returns a hypothesis whose [timestamp] is [None]. *)
Definition no_stamps : World :=
  {| requests_get := requests_get quiet;
     tmp_stem := tmp_stem quiet;
     write_error := write_error quiet;
     transcribe := fun _ _ =>
       Ret {| as_str := as_str hello; text := Some "hello"; timestamp := Some None |};
     time_start := time_start quiet;
     time_end := time_end quiet |}.

(** Every write to the temporary file fails. *)
Definition disk_full : World :=
  {| requests_get := requests_get quiet;
     tmp_stem := tmp_stem quiet;
     write_error := fun _ => Some "[Errno 28] No space left on device";
     transcribe := transcribe quiet;
     time_start := time_start quiet;
     time_end := time_end quiet |}.

(** [{"audio": "data:audio/wav;base64,AAAA", "timestamps": false}] *)
Definition plain_request : dict :=
  [("audio", JStr "data:audio/wav;base64,AAAA"); ("timestamps", JBool false)].

(** [{"audio": "data:audio/wav;base64,AAAA", "timestamps": true}] *)
Definition stamped_request : dict :=
  [("audio", JStr "data:audio/wav;base64,AAAA"); ("timestamps", JBool true)].

End Scenario.

(** ** Checks decided by evaluation *)

(** A property of every natural number below [n]. *)
Definition all_below (P : N -> bool) (n : nat) : bool :=
  forallb P (map N.of_nat (seq 0 n)).

Module Base64Checks.
Import Base64.

(** Characters that cannot be mistaken for a data URL, a path or a pad. *)
Definition plain (c : ascii) : bool :=
  Py.is_ascii c && negb (Ascii.eqb c ":") && negb (Ascii.eqb c "\") && negb (Ascii.eqb c ",").

Fixpoint all_chars (P : ascii -> bool) (s : string) : bool :=
  match s with
  | EmptyString => true
  | String c rest => P c && all_chars P rest
  end.

Definition sextet_ok (i : N) : bool :=
  match table_a2b (table_b2a i) with
  | Some j => (j =? i)%N
  | None => false
  end
  && negb (Ascii.eqb (table_b2a i) BASE64_PAD)
  && plain (table_b2a i).

(** The bit arithmetic of one group, checked on every pair of bytes. *)
Definition first_pair_ok (x y : N) : bool :=
  let s1 := N.shiftr x 2 in
  let s2 := N.lor (N.shiftl (N.land x 3) 4) (N.shiftr y 4) in
  let s2' := N.shiftl (N.land x 3) 4 in
  (s1 <? 64)%N && (s2 <? 64)%N && (s2' <? 64)%N
  && (N.lor (N.shiftl s1 2) (N.shiftr s2 4) mod 256 =? x)%N
  && (N.lor (N.shiftl s1 2) (N.shiftr s2' 4) mod 256 =? x)%N
  && (N.land s2 15 =? N.shiftr y 4)%N.

Definition second_pair_ok (y z : N) : bool :=
  let s3 := N.lor (N.shiftl (N.land y 15) 2) (N.shiftr z 6) in
  let s3' := N.shiftl (N.land y 15) 2 in
  let s4 := N.land z 63 in
  (s3 <? 64)%N && (s3' <? 64)%N && (s4 <? 64)%N
  && (N.lor (N.shiftl (N.shiftr y 4) 4) (N.shiftr s3 2) mod 256 =? y)%N
  && (N.lor (N.shiftl (N.shiftr y 4) 4) (N.shiftr s3' 2) mod 256 =? y)%N
  && (N.lor (N.shiftl (N.land s3 3) 6) s4 mod 256 =? z)%N.

End Base64Checks.

(** ** What the decoder keeps of a string *)

Module Base64Lenient.
Import Base64.

(** A character of the alphabet. *)
Definition in_alphabet (c : ascii) : bool :=
  match table_a2b c with Some _ => true | None => false end.

(** The characters the decoding loop looks at: the alphabet and the pad. *)
Definition significant (c : ascii) : bool := Ascii.eqb c BASE64_PAD || in_alphabet c.

(** [s] without the characters the decoding loop skips. *)
Fixpoint keep (s : string) : string :=
  match s with
  | EmptyString => EmptyString
  | String c rest => if significant c then String c (keep rest) else keep rest
  end.

Fixpoint alphabet_only (s : string) : bool :=
  match s with
  | EmptyString => true
  | String c rest => in_alphabet c && alphabet_only rest
  end.

(** A character of the alphabet is ASCII and is none of ["="], [":"],
    the backslash; checked on the code [n] of the character. *)
Definition alphabet_char_ok (n : N) : bool :=
  let c := ascii_of_N n in
  implb (in_alphabet c)
    (Py.is_ascii c && negb (Ascii.eqb c BASE64_PAD) && negb (Ascii.eqb c ":")
     && negb (Ascii.eqb c "\")).

End Base64Lenient.

(** ** [test_parakeet.py]: the requests the test client builds *)

Module TestClient.

(** [{"audio": {"data": audio_base64}, "timestamps": timestamps}], where
    [audio_base64 = base64.b64encode(audio_bytes).decode("utf-8")]. *)
Definition payload (audio_bytes : list byte) (timestamps : bool) : dict :=
  [("audio", JObj [("data", JStr (Base64.b64encode audio_bytes))]);
   ("timestamps", JBool timestamps)].

(** [{"audio": {"path": audio_url}, "timestamps": False}] *)
Definition url_payload (audio_url : string) : dict :=
  [("audio", JObj [("path", JStr audio_url)]); ("timestamps", JBool false)].

End TestClient.

(** ** [deploy_parakeet.py]: listing and the command line *)

Module DeployCli.
Import Deploy.

(** What the command-line tool does that can be observed: what [deploy]
    and [cleanup] do, and the one request of [list_endpoints]. *)
Inductive action : Type :=
| Managed (e : event)
| ListEndpoints (NameContains StatusEquals : string).

Abbreviation tool := (stmt (list action)).

(** A statement of [deploy] or [cleanup], run inside the tool. *)
Definition managed {A} (c : client A) : tool A :=
  fun log => let '(r, events) := c [] in (r, (log ++ map Managed events)%list).

Definition say (line : string) : tool unit :=
  fun log => (Ret tt, (log ++ [Managed (Print line)])%list).

Fixpoint say_all (lines : list string) : tool unit :=
  match lines with
  | [] => ret tt
  | line :: rest => say line ;;; say_all rest
  end.

(** [list_endpoints()]: [listing] is the answer of the service, the
    [EndpointName] and [EndpointStatus] of each entry of ["Endpoints"]. *)
Definition list_endpoints (listing : outcome (list (string * string))) : tool unit :=
  endpoints <- (fun log =>
                  (listing, (log ++ [ListEndpoints "parakeet" "InService"])%list)) ;;
  say "当前运行的 Parakeet 端点:" ;;;
  say_all (map (fun ep => "  - " ++ fst ep ++ " (" ++ snd ep ++ ")") endpoints).

Definition usage : tool unit :=
  say "用法:" ;;;
  say "  python deploy_parakeet.py          # 部署" ;;;
  say "  python deploy_parakeet.py list     # 列出端点" ;;;
  say "  python deploy_parakeet.py cleanup <endpoint_name>  # 清理".

(** The [__main__] block, on [sys.argv]. *)
Definition main (sm : SageMaker) (listing : outcome (list (string * string)))
    (now : datetime) (argv : list string) : tool unit :=
  if (1 <? length argv)%nat then
    command <- lift (Py.index argv 1) ;;
    if String.eqb command "cleanup" && (2 <? length argv)%nat then
      name <- lift (Py.index argv 2) ;;
      managed (cleanup sm name)
    else if String.eqb command "list" then list_endpoints listing
    else usage
  else
    managed (deploy sm now) ;;; ret tt.

(** The requests of a log of the tool, and the names they delete and
    create. *)
Fixpoint requests (log : list action) : list call :=
  match log with
  | [] => []
  | Managed (Call c) :: rest => c :: requests rest
  | _ :: rest => requests rest
  end.

Definition is_delete (c : call) : bool :=
  match c with
  | DeleteEndpoint _ | DeleteEndpointConfig _ | DeleteModel _ => true
  | _ => false
  end.

Definition is_create (c : call) : bool :=
  match c with
  | CreateModel _ _ _ | CreateEndpointConfig _ _ _ | CreateEndpoint _ _ => true
  | _ => false
  end.

Fixpoint created (l : list call) : list string :=
  match l with
  | [] => []
  | CreateModel n _ _ :: rest => n :: created rest
  | CreateEndpointConfig n _ _ :: rest => n :: created rest
  | CreateEndpoint n _ :: rest => n :: created rest
  | _ :: rest => created rest
  end.

Fixpoint deleted (l : list call) : list string :=
  match l with
  | [] => []
  | DeleteEndpoint n :: rest => n :: deleted rest
  | DeleteEndpointConfig n :: rest => n :: deleted rest
  | DeleteModel n :: rest => n :: deleted rest
  | _ :: rest => deleted rest
  end.

(** The number a string of decimal digits stands for. *)
Fixpoint digits_value (acc : N) (s : string) : N :=
  match s with
  | EmptyString => acc
  | String c rest => digits_value (10 * acc + (N_of_ascii c - 48))%N rest
  end.

(** A zero-padded field is [width] characters that read back as [n]. *)
Definition field_ok (width : nat) (n : N) : bool :=
  (String.length (zero_padded width n) =? width)%nat
  && (digits_value 0 (zero_padded width n) =? n)%N.

End DeployCli.

(** ** Loading the model

    What [load_model] of [serve.py] and [model_fn] of [inference.py] ask
    of the outside: the model hub, the device, the [soundfile] module and
    the name of the warm-up file. *)

Abbreviation asr_model := (list byte -> bool -> outcome asr_output).

Record Startup : Type := {
  cuda_available : bool;                          (* torch.cuda.is_available() *)
  from_pretrained : string -> outcome asr_model;  (* ASRModel.from_pretrained(model_name=..) *)
  to_device : string -> option string;            (* model.to(device): [Some msg] when it raises *)
  eval_error : option string;                     (* model.eval() *)
  soundfile_error : option string;                (* import soundfile (and numpy) *)
  warmup_wav : list byte;                         (* what sf.write stores for the noise *)
  sf_write_error : option string;                 (* sf.write(..) *)
  warmup_stem : string                            (* the name NamedTemporaryFile picks *)
}.

Definition warmup_name (env : Startup) : string := "/tmp/tmp" ++ warmup_stem env ++ ".wav".

Definition device_of (env : Startup) : string :=
  if cuda_available env then "cuda" else "cpu".

(** A call that raises when the outside says so. *)
Definition may_raise {S} (error : option string) : stmt S unit :=
  match error with
  | Some msg => raise msg
  | None => ret tt
  end.

(** Files, for a state that holds a file system. *)
Section Disk.

Context {S : Type}.
Variable get_disk : S -> gmap string (list byte).
Variable set_disk : gmap string (list byte) -> S -> S.

Definition create_file (name : string) : stmt S unit :=
  fun s => (Ret tt, set_disk (<[name := []]> (get_disk s)) s).

Definition store_file (name : string) (data : list byte) : stmt S unit :=
  fun s => (Ret tt, set_disk (<[name := data]> (get_disk s)) s).

Definition remove_file (name : string) : stmt S unit :=
  fun s => (Ret tt, set_disk (delete name (get_disk s)) s).

Definition read_file (name : string) : stmt S (list byte) :=
  fun s =>
    match get_disk s !! name with
    | Some data => (Ret data, s)
    | None => (Exc ("[Errno 2] No such file or directory: '" ++ name ++ "'"), s)
    end.

(** [sf.write(name, warmup_audio, 16000)] then [model.transcribe([name])],
    the result of which is dropped. *)
Definition write_and_transcribe (env : Startup) (m : asr_model) (name : string)
    (guard : stmt S unit -> stmt S unit) : stmt S unit :=
  may_raise (sf_write_error env) ;;;
  store_file name (warmup_wav env) ;;;
  guard (audio <- read_file name ;;
         lift (m audio false) ;;;
         ret tt).

End Disk.

(** *** [serve.py]: [load_model], [/ping] and [/] *)

Module ServeLife.

(** The globals [model] and [model_loaded], and the disk. *)
Record service : Type := {
  model : option asr_model;
  model_loaded : bool;
  disk : gmap string (list byte)
}.

Definition starting (fs : gmap string (list byte)) : service :=
  {| model := None; model_loaded := false; disk := fs |}.

Definition set_disk (fs : gmap string (list byte)) (s : service) : service :=
  {| model := model s; model_loaded := model_loaded s; disk := fs |}.

Definition set_model (m : asr_model) : stmt service unit :=
  fun s => (Ret tt, {| model := Some m; model_loaded := model_loaded s; disk := disk s |}).

Definition set_loaded : stmt service unit :=
  fun s => (Ret tt, {| model := model s; model_loaded := true; disk := disk s |}).

Definition get_model : stmt service (option asr_model) := fun s => (Ret (model s), s).

(** The warm-up: everything it raises is logged and dropped, and the
    file, made with [delete=True], is removed when the [with] block is
    left. *)
Definition warm_up (env : Startup) (m : asr_model) : stmt service unit :=
  try_except
    (may_raise (soundfile_error env) ;;;
     create_file disk set_disk (warmup_name env) ;;;
     try_finally
       (write_and_transcribe disk set_disk env m (warmup_name env) (fun body => body))
       (remove_file disk set_disk (warmup_name env)))
    (fun _ => ret tt).

Definition load_model (env : Startup) : stmt service (option asr_model) :=
  fun s =>
    if model_loaded s then (Ret (model s), s)
    else
      (m <- lift (from_pretrained env MODEL_NAME) ;;
       set_model m ;;;
       may_raise (to_device env (device_of env)) ;;;
       may_raise (eval_error env) ;;;
       warm_up env m ;;;
       set_loaded ;;;
       get_model) s.

(** [GET /ping]: the status of the answer. *)
Definition health_check (s : service) : Z := if model_loaded s then 200%Z else 503%Z.

(** [GET /] *)
Definition root (s : service) : dict :=
  [("model", JStr MODEL_NAME);
   ("status", JStr (if model_loaded s then "healthy" else "loading"));
   ("endpoints", JObj [("/ping", JStr "Health check");
                       ("/invocations", JStr "Transcription endpoint")])].

(** The world [invoke] runs in: its model is the global [model]. *)
Definition serving (s : service) (w : World) : World :=
  {| requests_get := requests_get w;
     tmp_stem := tmp_stem w;
     write_error := write_error w;
     transcribe := match model s with
                   | Some m => m
                   | None => fun _ _ => Exc "'NoneType' object has no attribute 'transcribe'"
                   end;
     time_start := time_start w;
     time_end := time_end w |}.

(** [POST /invocations] on the running service. *)
Definition invocations (s : service) (w : World) (request : Serve.Request)
    : outcome Serve.Response * gmap string (list byte) :=
  Serve.invoke (serving s w) request (disk s).

End ServeLife.

(** *** [inference.py]: [model_fn] *)

Module InferenceLife.

(** The globals [model] and [device], and the disk. *)
Record globals : Type := {
  model : option asr_model;
  device : option string;
  disk : gmap string (list byte)
}.

Definition starting (fs : gmap string (list byte)) : globals :=
  {| model := None; device := None; disk := fs |}.

Definition set_disk (fs : gmap string (list byte)) (s : globals) : globals :=
  {| model := model s; device := device s; disk := fs |}.

Definition set_device (d : string) : stmt globals unit :=
  fun s => (Ret tt, {| model := model s; device := Some d; disk := disk s |}).

Definition set_model (m : asr_model) : stmt globals unit :=
  fun s => (Ret tt, {| model := Some m; device := device s; disk := disk s |}).

(** [try: body / except: pass] *)
Definition swallow (body : stmt globals unit) : stmt globals unit :=
  try_except body (fun _ => ret tt).

(** [model_fn(model_dir)]: the warm-up file is made with [delete=False]
    and unlinked by hand at the end of the [with] block. *)
Definition model_fn (env : Startup) (model_dir : string) : stmt globals asr_model :=
  set_device (device_of env) ;;;
  m <- lift (from_pretrained env MODEL_NAME) ;;
  set_model m ;;;
  may_raise (to_device env (device_of env)) ;;;
  may_raise (eval_error env) ;;;
  create_file disk set_disk (warmup_name env) ;;;
  may_raise (soundfile_error env) ;;;
  write_and_transcribe disk set_disk env m (warmup_name env) swallow ;;;
  remove_file disk set_disk (warmup_name env) ;;;
  ret m.

End InferenceLife.

(** *** Sample starts *)

Module Startups.

(** Everything works, and the model is the one of [Scenario.quiet]. *)
Definition sound : Startup :=
  {| cuda_available := false;
     from_pretrained := fun _ => Ret (transcribe Scenario.quiet);
     to_device := fun _ => None;
     eval_error := None;
     soundfile_error := None;
     warmup_wav := [x52; x49; x46; x46];
     sf_write_error := None;
     warmup_stem := "w1" |}.

(** The model is fetched, but the disk is full and the model raises. *)
Definition shaky : Startup :=
  {| cuda_available := true;
     from_pretrained := fun _ => Ret (fun _ _ => Exc "CUDA out of memory");
     to_device := fun _ => None;
     eval_error := None;
     soundfile_error := None;
     warmup_wav := [x52; x49; x46; x46];
     sf_write_error := Some "[Errno 28] No space left on device";
     warmup_stem := "w1" |}.

(** The hub cannot be reached. *)
Definition offline : Startup :=
  {| cuda_available := false;
     from_pretrained := fun _ => Exc "Connection refused";
     to_device := fun _ => None;
     eval_error := None;
     soundfile_error := None;
     warmup_wav := [];
     sf_write_error := None;
     warmup_stem := "w2" |}.

End Startups.

(** * Properties *)

(** ** Checking a property on an initial segment of [N] by evaluation *)

Lemma all_below_spec (P : N -> bool) (n : nat) :
  all_below P n = true -> forall x : N, (x < N.of_nat n)%N -> P x = true.
Proof.
  unfold all_below. intros H x Hx.
  rewrite forallb_forall in H. apply H.
  apply in_map_iff. exists (N.to_nat x). split.
  - apply N2Nat.id.
  - apply in_seq. lia.
Qed.

Lemma byte_below (b : byte) : (Byte.to_N b < N.of_nat 256)%N.
Proof. pose proof (Byte.to_N_bounded b). lia. Qed.

Module Base64Facts.
Import Base64 Base64Checks.

Lemma sextets_ok : all_below sextet_ok 64 = true.
Proof. vm_compute. reflexivity. Qed.

Lemma table_roundtrip (i : N) : (i < 64)%N -> table_a2b (table_b2a i) = Some i.
Proof.
  intros Hi. pose proof (all_below_spec _ _ sextets_ok i Hi) as H.
  unfold sextet_ok in H. apply andb_prop in H as [H _]. apply andb_prop in H as [H _].
  destruct (table_a2b (table_b2a i)); [|discriminate].
  apply N.eqb_eq in H. now subst.
Qed.

Lemma table_not_pad (i : N) : (i < 64)%N -> Ascii.eqb (table_b2a i) BASE64_PAD = false.
Proof.
  intros Hi. pose proof (all_below_spec _ _ sextets_ok i Hi) as H.
  unfold sextet_ok in H. apply andb_prop in H as [H _]. apply andb_prop in H as [_ H].
  now apply negb_true_iff in H.
Qed.

Lemma table_plain (i : N) : (i < 64)%N -> plain (table_b2a i) = true.
Proof.
  intros Hi. pose proof (all_below_spec _ _ sextets_ok i Hi) as H.
  unfold sextet_ok in H. now apply andb_prop in H as [_ H].
Qed.

(** What the decoder does with one character of the alphabet. *)
Lemma a2b_loop_sextet (i : N) rest quad_pos leftchar pads bin_data :
  (i < 64)%N ->
  a2b_loop (String (table_b2a i) rest) quad_pos leftchar pads bin_data =
  match quad_pos with
  | 0%N => a2b_loop rest 1%N i 0%N bin_data
  | 1%N => a2b_loop rest 2%N (N.land i 15) 0%N
             (bin_data ++ [to_uchar (N.lor (N.shiftl leftchar 2) (N.shiftr i 4))])
  | 2%N => a2b_loop rest 3%N (N.land i 3) 0%N
             (bin_data ++ [to_uchar (N.lor (N.shiftl leftchar 4) (N.shiftr i 2))])
  | _ => a2b_loop rest 0%N 0%N 0%N
             (bin_data ++ [to_uchar (N.lor (N.shiftl leftchar 6) i)])
  end.
Proof.
  intros Hi. cbn [a2b_loop].
  rewrite (table_not_pad i Hi), (table_roundtrip i Hi). reflexivity.
Qed.

Lemma to_uchar_byte (n : N) (b : byte) : (n mod 256 = Byte.to_N b)%N -> to_uchar n = b.
Proof. intros H. unfold to_uchar. rewrite H, Byte.of_to_N. reflexivity. Qed.


Lemma first_pairs_ok :
  all_below (fun x => all_below (first_pair_ok x) 256) 256 = true.
Proof. vm_compute. reflexivity. Qed.

Lemma second_pairs_ok :
  all_below (fun y => all_below (second_pair_ok y) 256) 256 = true.
Proof. vm_compute. reflexivity. Qed.

Lemma first_pair (x y : byte) : first_pair_ok (Byte.to_N x) (Byte.to_N y) = true.
Proof.
  apply (all_below_spec _ 256); [|apply byte_below].
  apply (all_below_spec (fun x => all_below (first_pair_ok x) 256) 256 first_pairs_ok).
  apply byte_below.
Qed.

Lemma second_pair (y z : byte) : second_pair_ok (Byte.to_N y) (Byte.to_N z) = true.
Proof.
  apply (all_below_spec _ 256); [|apply byte_below].
  apply (all_below_spec (fun y => all_below (second_pair_ok y) 256) 256 second_pairs_ok).
  apply byte_below.
Qed.

Lemma a2b_loop_pad rest quad_pos leftchar pads bin_data :
  a2b_loop (String BASE64_PAD rest) quad_pos leftchar pads bin_data =
  if (2 <=? quad_pos)%N then
    if (4 <=? quad_pos + (pads + 1))%N then Ret bin_data
    else a2b_loop rest quad_pos leftchar (pads + 1)%N bin_data
  else a2b_loop rest quad_pos leftchar pads bin_data.
Proof. reflexivity. Qed.

Ltac split_checks H :=
  repeat (let H' := fresh "C" in apply andb_prop in H as [H H']);
  repeat match goal with
         | C : (_ <? _)%N = true |- _ => apply N.ltb_lt in C
         | C : (_ =? _)%N = true |- _ => apply N.eqb_eq in C
         end.

(** A full group of three bytes is decoded back and leaves the decoder
    at the start of a quad. *)
Lemma a2b_loop_group (x y z : byte) (rest : list byte) leftchar pads bin_data :
  a2b_loop (b2a_base64 (x :: y :: z :: rest)) 0%N leftchar pads bin_data =
  a2b_loop (b2a_base64 rest) 0%N 0%N 0%N (bin_data ++ [x; y; z]).
Proof.
  pose proof (first_pair x y) as F. pose proof (second_pair y z) as G.
  unfold first_pair_ok in F. unfold second_pair_ok in G. cbv zeta in F, G.
  split_checks F. split_checks G.
  cbn [b2a_base64]. cbv zeta.
  rewrite !a2b_loop_sextet by assumption.
  match goal with C : N.land _ 15 = _ |- _ => rewrite C end.
  rewrite (to_uchar_byte _ x) by assumption.
  rewrite (to_uchar_byte _ y) by assumption.
  rewrite (to_uchar_byte _ z) by assumption.
  rewrite <- !app_assoc. reflexivity.
Qed.

Lemma a2b_loop_tail1 (x : byte) leftchar pads bin_data :
  a2b_loop (b2a_base64 [x]) 0%N leftchar pads bin_data = Ret (bin_data ++ [x])%list.
Proof.
  pose proof (first_pair x x) as F.
  unfold first_pair_ok in F. cbv zeta in F. split_checks F.
  cbn [b2a_base64]. cbv zeta.
  rewrite !a2b_loop_sextet by assumption.
  rewrite !a2b_loop_pad. cbn [N.leb N.compare N.add Pos.compare Pos.compare_cont Pos.add Pos.succ].
  rewrite (to_uchar_byte _ x) by assumption. reflexivity.
Qed.

Lemma a2b_loop_tail2 (x y : byte) leftchar pads bin_data :
  a2b_loop (b2a_base64 [x; y]) 0%N leftchar pads bin_data = Ret (bin_data ++ [x; y])%list.
Proof.
  pose proof (first_pair x y) as F. pose proof (second_pair y y) as G.
  unfold first_pair_ok in F. unfold second_pair_ok in G. cbv zeta in F, G.
  split_checks F. split_checks G.
  cbn [b2a_base64]. cbv zeta.
  rewrite !a2b_loop_sextet by assumption.
  rewrite !a2b_loop_pad. cbn [N.leb N.compare N.add Pos.compare Pos.compare_cont Pos.add Pos.succ].
  match goal with C : N.land _ 15 = _ |- _ => rewrite C end.
  rewrite (to_uchar_byte _ x) by assumption.
  rewrite (to_uchar_byte _ y) by assumption.
  rewrite <- !app_assoc. reflexivity.
Qed.

Lemma a2b_loop_encoded (n : nat) :
  forall (data bin_data : list byte),
    (length data <= n)%nat ->
    a2b_loop (b2a_base64 data) 0%N 0%N 0%N bin_data = Ret (bin_data ++ data)%list.
Proof.
  induction n as [|n IH]; intros data bin_data Hlen.
  - destruct data; [|cbn in Hlen; lia]. cbn. now rewrite app_nil_r.
  - destruct data as [|x [|y [|z rest]]].
    + cbn. now rewrite app_nil_r.
    + apply a2b_loop_tail1.
    + apply a2b_loop_tail2.
    + rewrite a2b_loop_group, IH by (cbn in Hlen; lia).
      rewrite <- app_assoc. reflexivity.
Qed.

(** [binascii.a2b_base64] inverts [binascii.b2a_base64]. *)
Lemma a2b_b2a (data : list byte) : a2b_base64 (b2a_base64 data) = Ret data.
Proof. unfold a2b_base64. now rewrite (a2b_loop_encoded (length data)). Qed.

(** The characters of an encoding. *)
Lemma b2a_base64_plain (n : nat) :
  forall data : list byte,
    (length data <= n)%nat -> all_chars plain (b2a_base64 data) = true.
Proof.
  induction n as [|n IH]; intros data Hlen.
  - destruct data; [reflexivity | cbn in Hlen; lia].
  - destruct data as [|x [|y [|z rest]]]; [reflexivity | | |].
    + pose proof (first_pair x x) as F.
      unfold first_pair_ok in F. cbv zeta in F. split_checks F.
      cbn [b2a_base64 all_chars]. cbv zeta.
      rewrite !table_plain by assumption. reflexivity.
    + pose proof (first_pair x y) as F. pose proof (second_pair y y) as G.
      unfold first_pair_ok in F. unfold second_pair_ok in G. cbv zeta in F, G.
      split_checks F. split_checks G.
      cbn [b2a_base64 all_chars]. cbv zeta.
      rewrite !table_plain by assumption. reflexivity.
    + pose proof (first_pair x y) as F. pose proof (second_pair y z) as G.
      unfold first_pair_ok in F. unfold second_pair_ok in G. cbv zeta in F, G.
      split_checks F. split_checks G.
      cbn [b2a_base64 all_chars]. cbv zeta.
      rewrite !table_plain by assumption.
      rewrite IH by (cbn in Hlen; lia). reflexivity.
Qed.

Lemma all_chars_weaken (P Q : ascii -> bool) (s : string) :
  (forall c, P c = true -> Q c = true) ->
  all_chars P s = true -> all_chars Q s = true.
Proof.
  intros HPQ. induction s as [|c s IH]; [reflexivity|].
  cbn. intros H. apply andb_prop in H as [Hc Hs].
  now rewrite (HPQ c Hc), IH.
Qed.

Lemma all_chars_ascii (s : string) : all_chars Py.is_ascii s = Py.all_ascii s.
Proof. induction s as [|c s IH]; [reflexivity|]. cbn. now rewrite IH. Qed.

Lemma all_chars_contains (P : ascii -> bool) (c : ascii) (s : string) :
  P c = false -> all_chars P s = true -> Py.contains c s = false.
Proof.
  intros Hc. induction s as [|x s IH]; [reflexivity|].
  cbn. intros H. apply andb_prop in H as [Hx Hs].
  destruct (Ascii.eqb_spec x c) as [->|_]; [congruence | now apply IH].
Qed.

Lemma all_chars_prefix (P : ascii -> bool) (p s : string) :
  String.prefix p s = true -> all_chars P s = true -> all_chars P p = true.
Proof.
  revert s. induction p as [|c p IH]; intros s; [reflexivity|].
  destruct s as [|x s]; [discriminate|]. cbn.
  destruct (ascii_dec c x) as [->|_]; [|discriminate].
  intros Hp H. apply andb_prop in H as [Hx Hs]. rewrite Hx. now apply (IH s).
Qed.

Lemma plain_is_ascii (c : ascii) : plain c = true -> Py.is_ascii c = true.
Proof.
  unfold plain. intros H.
  apply andb_prop in H as [H _]. apply andb_prop in H as [H _].
  now apply andb_prop in H as [H _].
Qed.

Lemma b64encode_ascii (data : list byte) : Py.all_ascii (b64encode data) = true.
Proof.
  rewrite <- all_chars_ascii.
  apply (all_chars_weaken plain); [apply plain_is_ascii|].
  now apply (b2a_base64_plain (length data)).
Qed.

Lemma b64encode_no_backslash (data : list byte) : Py.contains "\" (b64encode data) = false.
Proof.
  apply (all_chars_contains plain); [reflexivity|].
  now apply (b2a_base64_plain (length data)).
Qed.

Lemma b64encode_not_data_url (data : list byte) :
  Py.startswith (b64encode data) "data:" = false.
Proof.
  unfold Py.startswith. destruct (String.prefix "data:" (b64encode data)) eqn:E; [|reflexivity].
  pose proof (all_chars_prefix plain _ _ E (b2a_base64_plain (length data) data (le_n _))) as H.
  discriminate H.
Qed.

(** [b64decode(b64encode(data)) == data] *)
Lemma b64decode_b64encode (data : list byte) : b64decode (b64encode data) = Ret data.
Proof. unfold b64decode. rewrite b64encode_ascii. apply a2b_b2a. Qed.

End Base64Facts.

(** ** Running statements *)

Section Run.

Context {S : Type}.

Lemma bind_Ret {A B} (m : stmt S A) (f : A -> stmt S B) (s s' : S) (a : A) :
  m s = (Ret a, s') -> bind m f s = f a s'.
Proof. unfold bind. now intros ->. Qed.

Lemma bind_Exc {A B} (m : stmt S A) (f : A -> stmt S B) (s s' : S) (e : string) :
  m s = (Exc e, s') -> bind m f s = (Exc e, s').
Proof. unfold bind. now intros ->. Qed.

Lemma bind_assoc {A B C} (m : stmt S A) (f : A -> stmt S B) (g : B -> stmt S C) (s : S) :
  bind (bind m f) g s = bind m (fun x => bind (f x) g) s.
Proof. unfold bind. destruct (m s) as [[a|e] s']; reflexivity. Qed.

Lemma try_except_Ret {A} (m : stmt S A) (h : string -> stmt S A) (s s' : S) (a : A) :
  m s = (Ret a, s') -> try_except m h s = (Ret a, s').
Proof. unfold try_except. now intros ->. Qed.

Lemma try_except_Exc {A} (m : stmt S A) (h : string -> stmt S A) (s s' : S) (e : string) :
  m s = (Exc e, s') -> try_except m h s = h e s'.
Proof. unfold try_except. now intros ->. Qed.

Lemma try_finally_Ret {A} (m : stmt S A) (fin : stmt S unit) (s s' s'' : S) (r : outcome A) :
  m s = (r, s') -> fin s' = (Ret tt, s'') -> try_finally m fin s = (r, s'').
Proof. unfold try_finally. now intros -> ->. Qed.

End Run.

(** Run the next statement of a sequence when its result is known. *)
Ltac run_step :=
  match goal with
  | |- context [bind ?m ?f ?s] =>
      first [ rewrite (bind_Ret m f s _ _ eq_refl)
            | rewrite (bind_Exc m f s _ _ eq_refl) ]
  end.
Ltac run := repeat run_step.

Ltac unfold_stmt :=
  unfold bind, ret, raise, lift, try_except, try_finally,
    open_read, get_temp_file, set_temp_file, os_path_exists, os_unlink,
    NamedTemporaryFile, file_write, model_transcribe, py_get in *.

Ltac unfold_all :=
  unfold getattr_text, getattr_timestamp in *;
  repeat (progress unfold_stmt);
  cbv beta iota; cbn [files temp_file].

Ltac case_step :=
  match goal with
  | |- context [match ?x with _ => _ end] =>
      lazymatch x with
      | context [match _ with _ => _ end] => fail
      | _ => destruct x eqn:?
      end
  end.


(** Audio ingestion reads the file system and leaves the frame as it is. *)
Lemma audio_from_source_frame (w : World) (timeout : Z) (v : json) (s : frame) :
  snd (audio_from_source w timeout v s) = s.
Proof.
  unfold audio_from_source. unfold_stmt.
  repeat case_step; reflexivity.
Qed.

(** The guard of the [finally] clauses. *)
Lemma temp_file_to_remove_run (s : frame) :
  temp_file_to_remove s =
  (Ret (match temp_file s with
        | Some name =>
            if negb (String.eqb name EmptyString) && bool_decide (is_Some (files s !! name))
            then Some name else None
        | None => None
        end), s).
Proof.
  unfold temp_file_to_remove. unfold_stmt.
  destruct (temp_file s) as [name|]; [|reflexivity].
  destruct (String.eqb name EmptyString); [reflexivity|]. cbn.
  now destruct (bool_decide (is_Some (files s !! name))).
Qed.

Lemma file_write_ok (w : World) (name : string) (data : list byte) (s : frame) :
  write_error w data = None ->
  file_write w name data s
  = (Ret tt, {| files := <[name := data]> (files s); temp_file := temp_file s |}).
Proof. unfold file_write. now intros ->. Qed.

Lemma file_write_fails (w : World) (name : string) (data : list byte) (s : frame) (e : string) :
  write_error w data = Some e -> file_write w name data s = (Exc e, s).
Proof. unfold file_write. now intros ->. Qed.

Lemma model_transcribe_run (w : World) (name : string) (data : list byte) (ts : bool)
    (s : frame) (r : outcome asr_output) :
  files s !! name = Some data ->
  transcribe w data ts = r ->
  model_transcribe w name ts s = (r, s).
Proof.
  intros H <-. unfold model_transcribe, bind, open_read, lift. rewrite H.
  now destruct (transcribe w data ts).
Qed.

(** The frame once the audio is on disk and [temp_file] is set. *)
Lemma written_frame_lookup (fs : gmap string (list byte)) (name : string) (data : list byte) :
  files {| files := <[name := data]> (<[name := []]> fs); temp_file := Some name |} !! name
  = Some data.
Proof. cbn. apply lookup_insert_eq. Qed.


Module ServeFacts.
Import Serve.

Lemma process_audio_frame (w : World) (v : json) (s : frame) :
  snd (process_audio w v s) = s.
Proof.
  unfold process_audio, try_except.
  pose proof (audio_from_source_frame w 60 v s) as H.
  destruct (audio_from_source w 60 v s) as [[a|e] s']; cbn in *; congruence.
Qed.

(** [process_audio] never raises. *)
Lemma process_audio_total (w : World) (v : json) (s : frame) :
  exists r, process_audio w v s = (Ret r, s).
Proof.
  pose proof (process_audio_frame w v s) as H.
  unfold process_audio, try_except in *.
  destruct (audio_from_source w 60 v s) as [[a|e] s']; cbn in *; subst; eauto.
Qed.

(** The [finally] clause of [invoke] never raises; it removes the file
    named by [temp_file], if that variable was set. *)
Lemma invoke_finally_run (s : frame) :
  invoke_finally s =
  (Ret tt,
   {| files := match temp_file s with
               | Some name => if String.eqb name EmptyString then files s
                              else delete name (files s)
               | None => files s
               end;
      temp_file := temp_file s |}).
Proof.
  unfold invoke_finally. rewrite (bind_Ret _ _ _ _ _ (temp_file_to_remove_run s)).
  destruct s as [fs [name|]]; cbn [temp_file files]; [|reflexivity].
  destruct (String.eqb name EmptyString); [reflexivity|]. cbn [negb andb].
  destruct (fs !! name) as [d|] eqn:E.
  - rewrite bool_decide_eq_true_2 by eauto.
    unfold try_except, os_unlink. cbn [files temp_file]. now rewrite E.
  - rewrite bool_decide_eq_false_2 by (intros [? ?]; congruence).
    unfold ret. now rewrite delete_id.
Qed.

(** [invoke] in terms of its [try] block. *)
Lemma invoke_run (w : World) (request : Request) (fs : gmap string (list byte))
    (r : outcome Response) (s : frame) :
  invoke_try w request (frame0 fs) = (r, s) ->
  invoke w request fs =
  (Ret (match r with Ret resp => resp | Exc e => jsonify [("error", JStr e)] 500 end),
   match temp_file s with
   | Some name => if String.eqb name EmptyString then files s else delete name (files s)
   | None => files s
   end).
Proof.
  intros H. unfold invoke.
  destruct r as [resp|e].
  - rewrite (try_finally_Ret _ _ _ _ _ _
               (try_except_Ret _ invoke_except _ _ _ H) (invoke_finally_run s)).
    reflexivity.
  - assert (try_except (invoke_try w request) invoke_except (frame0 fs)
            = (Ret (jsonify [("error", JStr e)] 500), s)) as H'.
    { now rewrite (try_except_Exc _ _ _ _ _ H). }
    rewrite (try_finally_Ret _ _ _ _ _ _ H' (invoke_finally_run s)).
    reflexivity.
Qed.

(** C1. A JSON request whose object has no [audio] key, or whose [audio]
    value [process_audio] cannot turn into bytes, is answered with status
    400 and a body that has an [error] key and no [text] key; the answer
    is never a 200, and the file system is left as it was. *)
Theorem invoke_bad_audio_400 (w : World) (o : dict) (fs : gmap string (list byte)) :
  dict_lookup "audio" o = None \/
  (exists v, dict_lookup "audio" o = Some v /\
             fst (process_audio w v (frame0 fs)) = Ret None) ->
  exists resp,
    invoke w (json_request (JObj o)) fs = (Ret resp, fs) /\
    status resp = 400%Z /\
    has_key "error" (body resp) = true /\
    has_key "text" (body resp) = false /\
    status resp <> 200%Z.
Proof.
  intros H.
  assert (exists msg, invoke_try w (json_request (JObj o)) (frame0 fs)
                      = (Ret (jsonify [("error", JStr msg)] 400), frame0 fs)) as [msg Htry].
  { unfold invoke_try. change (is_json _) with true. cbv iota.
    cbn [json_request get_json].
    run.
    destruct H as [Hnone | (v & Hv & Hdec)].
    - rewrite Hnone. cbn [truthy negb]. eauto.
    - rewrite Hv. destruct (truthy v) eqn:Ht; cbn [negb]; [|eauto].
      destruct (process_audio_total w v (frame0 fs)) as [r Hr].
      rewrite Hr in Hdec. cbn in Hdec. injection Hdec as ->.
      rewrite (bind_Ret _ _ _ _ _ Hr). eauto. }
  rewrite (invoke_run _ _ _ _ _ Htry).
  eexists. split; [reflexivity|].
  repeat split; try reflexivity. discriminate.
Qed.

Lemma invoke_bad_audio_400_witness :
  exists resp,
    invoke Scenario.quiet (json_request (JObj [("audio", JStr "abc")])) ∅ = (Ret resp, ∅) /\
    status resp = 400%Z /\
    has_key "error" (body resp) = true /\
    has_key "text" (body resp) = false /\
    status resp <> 200%Z.
Proof.
  apply (invoke_bad_audio_400 Scenario.quiet [("audio", JStr "abc")] ∅).
  right. exists (JStr "abc"). split; reflexivity.
Defined.

(** C10. An [audio] value that is present but falsy (the empty string,
    [false], [0], an empty object, an empty list) is answered exactly as
    a missing [audio] key: status 400 and the body
    [{"error": "Missing 'audio' field"}]; [predict_fn] returns the same
    body.  Presence is tested by truth value. *)
Theorem invoke_falsy_audio_is_missing (w : World) (o : dict) (v : json)
    (fs : gmap string (list byte)) :
  In v [JStr EmptyString; JBool false; JInt 0; JObj []; JArr []] ->
  dict_lookup "audio" o = Some v ->
  truthy v = false /\
  invoke w (json_request (JObj o)) fs
    = (Ret (jsonify [("error", JStr "Missing 'audio' field")] 400), fs) /\
  (forall o', dict_lookup "audio" o' = None ->
              invoke w (json_request (JObj o')) fs = invoke w (json_request (JObj o)) fs) /\
  Inference.predict_fn w (JObj o) fs = (Ret [("error", JStr "Missing 'audio' field")], fs).
Proof.
  intros Hin Hv.
  assert (truthy v = false) as Ht.
  { cbn in Hin. destruct Hin as [<-|[<-|[<-|[<-|[<-|[]]]]]]; reflexivity. }
  assert (forall o', dict_lookup "audio" o' = None \/ dict_lookup "audio" o' = Some v ->
            invoke w (json_request (JObj o')) fs
            = (Ret (jsonify [("error", JStr "Missing 'audio' field")] 400), fs)) as Hinv.
  { intros o' Ho'.
    assert (invoke_try w (json_request (JObj o')) (frame0 fs)
            = (Ret (jsonify [("error", JStr "Missing 'audio' field")] 400), frame0 fs)) as Htry.
    { unfold invoke_try. change (is_json _) with true. cbv iota.
      cbn [json_request get_json]. run.
      destruct Ho' as [-> | ->]; [reflexivity|]. now rewrite Ht. }
    now rewrite (invoke_run _ _ _ _ _ Htry). }
  split; [exact Ht|]. split; [apply Hinv; now right|].
  split.
  - intros o' Ho'. rewrite !Hinv; auto.
  - unfold Inference.predict_fn.
    assert (Inference.predict_fn_try w (JObj o) (frame0 fs)
            = (Ret [("error", JStr "Missing 'audio' field")], frame0 fs)) as Htry.
    { unfold Inference.predict_fn_try. run. now rewrite Hv, Ht. }
    rewrite (try_finally_Ret _ _ _ _ (frame0 fs) _
               (try_except_Ret _ Inference.predict_fn_except _ _ _ Htry)).
    + reflexivity.
    + unfold Inference.predict_fn_finally.
      rewrite (bind_Ret _ _ _ _ _ (temp_file_to_remove_run _)). reflexivity.
Qed.

Lemma invoke_falsy_audio_is_missing_witness :
  invoke Scenario.quiet (json_request (JObj [("audio", JStr EmptyString)])) ∅
  = (Ret (jsonify [("error", JStr "Missing 'audio' field")] 400), ∅).
Proof.
  refine (proj1 (proj2 (invoke_falsy_audio_is_missing _ [("audio", JStr EmptyString)]
                          (JStr EmptyString) ∅ _ _))).
  - cbn. left. reflexivity.
  - reflexivity.
Defined.

(** The [try] block up to the call of the model, when the audio decodes
    and is written. *)
Ltac run_to_model Hv Ht Hdec Hw :=
  unfold invoke_try; change (is_json _) with true; cbv iota;
  cbn [json_request get_json]; run;
  rewrite Hv, Ht; cbn [negb];
  rewrite (bind_Ret _ _ _ _ _ Hdec);
  run;
  rewrite (bind_Ret _ _ _ _ _ (file_write_ok _ _ _ _ Hw));
  run; cbn [files temp_file frame0].



(** With [timestamps] true, a model call that succeeds on a hypothesis
    with a [text] attribute is answered with a [timestamps] object whose
    [word] entry lists the model's word spans, and is empty when the
    model gave no time stamps. *)
Lemma invoke_word_timestamps (w : World) (o : dict) (fs : gmap string (list byte))
    (v : json) (data : list byte) (out : asr_output) (t : string) :
  dict_lookup "audio" o = Some v ->
  truthy v = true ->
  fst (process_audio w v (frame0 fs)) = Ret (Some data) ->
  truthy (timestamps_of o) = true ->
  write_error w data = None ->
  transcribe w data true = Ret out ->
  text out = Some t ->
  exists resp,
    fst (invoke w (json_request (JObj o)) fs) = Ret resp /\
    status resp = 200%Z /\
    dict_lookup "timestamps" (body resp)
      = Some (JObj [("word", JArr (map word_entry
           match timestamp out with
           | Some (Some d) => match spans_lookup "word" d with Some l => l | None => [] end
           | _ => []
           end))]).
Proof.
  intros Hv Ht Hdec Hts Hw Hout Htext.
  destruct (process_audio_total w v (frame0 fs)) as [r Hr].
  rewrite Hr in Hdec. cbn in Hdec. injection Hdec as ->.
  assert (exists s,
    invoke_try w (json_request (JObj o)) (frame0 fs)
    = (Ret (jsonify [("text", JStr t);
                     ("timestamps", JObj [("word", JArr (word_list out))]);
                     ("processing_time", JFloat (round3 (time_end w - time_start w)));
                     ("model", JStr MODEL_NAME)] 200), s)) as [s Htry].
  { run_to_model Hv Ht Hr Hw.
    fold (timestamps_of o). rewrite Hts.
    rewrite bind_assoc.
    rewrite (bind_Ret _ _ _ _ _
               (model_transcribe_run w _ data true _ _ (written_frame_lookup _ _ _) Hout)).
    unfold getattr_text. rewrite Htext. run. eexists. reflexivity. }
  rewrite (invoke_run _ _ _ _ _ Htry). cbn [fst].
  eexists. split; [reflexivity|]. split; [reflexivity|].
  cbn. unfold word_list.
  destruct (timestamp out) as [[[|entry more]|]|]; reflexivity.
Qed.

Ltac use_process_audio :=
  match goal with
  | |- context [process_audio ?w ?v ?s] =>
      let r := fresh "audio" in
      let H := fresh "Haudio" in
      destruct (process_audio_total w v s) as [r H]; rewrite H; clear H
  end.

(** Where the [try] block of [invoke] can leave the frame: untouched; with
    an empty temporary file and [temp_file] unset, when the write raised;
    or with the audio on disk and [temp_file] naming it. *)
Lemma invoke_try_frame (w : World) (request : Request) (fs : gmap string (list byte)) :
  let name := temp_name w ".wav" in
  let s := snd (invoke_try w request (frame0 fs)) in
  s = frame0 fs \/
  (s = {| files := <[name := []]> fs; temp_file := None |} /\
   exists data e, write_error w data = Some e) \/
  (exists data, s = {| files := <[name := data]> (<[name := []]> fs);
                       temp_file := Some name |}).
Proof.
  cbv zeta.
  set (P := fun s : frame =>
         s = frame0 fs \/
         (s = {| files := <[temp_name w ".wav" := []]> fs; temp_file := None |} /\
          exists data e, write_error w data = Some e) \/
         (exists data, s = {| files := <[temp_name w ".wav" := data]>
                                         (<[temp_name w ".wav" := []]> fs);
                              temp_file := Some (temp_name w ".wav") |})).
  change (P (snd (invoke_try w request (frame0 fs)))).
  assert (P (frame0 fs)) as P0 by (left; reflexivity).
  unfold invoke_try.
  destruct (is_json (content_type request)); [|exact P0].
  unfold bind at 1. unfold lift at 1.
  destruct (get_json request) as [input_data|e]; [|exact P0].
  destruct input_data; try exact P0.
  run. destruct (negb (truthy _)); [exact P0|].
  unfold bind at 1. use_process_audio.
  destruct audio as [data|]; [|exact P0].
  run. unfold bind at 1.
  destruct (write_error w data) as [e|] eqn:Hw.
  - rewrite (file_write_fails _ _ _ _ _ Hw). right. left. split; [reflexivity|eauto].
  - rewrite (file_write_ok _ _ _ _ Hw). right. right. exists data.
    run. cbn [files temp_file frame0].
    destruct (truthy _); unfold_all; rewrite lookup_insert_eq;
      repeat (case_step; cbv beta iota); reflexivity.
Qed.


Lemma temp_name_not_empty (w : World) (suffix : string) :
  String.eqb (temp_name w suffix) EmptyString = false.
Proof. reflexivity. Qed.

(** The file system after a request: as before, unless the write of the
    temporary file raised, in which case the empty file stays. *)
Lemma invoke_files (w : World) (request : Request) (fs : gmap string (list byte)) :
  fs !! temp_name w ".wav" = None ->
  snd (invoke w request fs) = fs \/
  (snd (invoke w request fs) = <[temp_name w ".wav" := []]> fs /\
   exists data e, write_error w data = Some e).
Proof.
  intros Hfresh.
  pose proof (invoke_try_frame w request fs) as Hs. cbv zeta in Hs.
  destruct (invoke_try w request (frame0 fs)) as [r s] eqn:E.
  rewrite (invoke_run _ _ _ _ _ E). cbn [snd] in *.
  destruct Hs as [-> | [[-> Hw] | [data ->]]]; cbn [temp_file files frame0].
  - now left.
  - right. now split.
  - left. rewrite temp_name_not_empty.
    rewrite delete_insert_eq, delete_insert_eq. now apply delete_id.
Qed.

(** When no write fails, a request leaves no file behind: the file
    system is restored, whether the model call succeeds or raises. *)
Lemma invoke_restores_files (w : World) (request : Request) (fs : gmap string (list byte)) :
  fs !! temp_name w ".wav" = None ->
  (forall data, write_error w data = None) ->
  snd (invoke w request fs) = fs.
Proof.
  intros Hfresh Hw.
  destruct (invoke_files w request fs Hfresh) as [H | [_ (data & e & He)]]; [exact H|].
  rewrite Hw in He. discriminate.
Qed.

(** Symbolic execution of the handlers' statements, in every place of
    the goal where they occur. *)
Ltac exec_step :=
  first
    [ progress cbn [files temp_file frame0]
    | progress run
    | rewrite bind_assoc
    | match goal with
      | H : process_audio ?w ?v ?s = (Ret _, _) |- context [bind (process_audio ?w ?v) _ ?s] =>
          rewrite (bind_Ret _ _ _ _ _ H)
      | H : audio_from_source ?w ?t ?v ?s = (Ret _, _)
        |- context [bind (audio_from_source ?w ?t ?v) _ ?s] =>
          rewrite (bind_Ret _ _ _ _ _ H)
      | H : audio_from_source ?w ?t ?v ?s = (Exc _, _)
        |- context [bind (audio_from_source ?w ?t ?v) _ ?s] =>
          rewrite (bind_Exc _ _ _ _ _ H)
      | H : write_error ?w ?d = Some _ |- context [bind (file_write ?w ?n ?d) _ ?s] =>
          rewrite (bind_Exc _ _ _ _ _ (file_write_fails w n d s _ H));
          cbn [files temp_file frame0]
      | H : write_error ?w ?d = None |- context [bind (file_write ?w ?n ?d) _ ?s] =>
          rewrite (bind_Ret _ _ _ _ _ (file_write_ok w n d s H));
          cbn [files temp_file frame0]
      | H : transcribe ?w ?d ?ts = Ret _
        |- context [bind (model_transcribe ?w ?n ?ts) _
                      {| files := <[?n := ?d]> ?m; temp_file := ?t |}] =>
          rewrite (bind_Ret _ _ _ _ _
                     (model_transcribe_run w n d ts
                        {| files := <[n := d]> m; temp_file := t |} _
                        (lookup_insert_eq _ _ _) H))
      | H : transcribe ?w ?d ?ts = Exc _
        |- context [bind (model_transcribe ?w ?n ?ts) _
                      {| files := <[?n := ?d]> ?m; temp_file := ?t |}] =>
          rewrite (bind_Exc _ _ _ _ _
                     (model_transcribe_run w n d ts
                        {| files := <[n := d]> m; temp_file := t |} _
                        (lookup_insert_eq _ _ _) H))
      end
    | match goal with
      | |- context [bind (process_audio ?w ?v) _ ?s] =>
          let r := fresh "audio" in
          let H := fresh "Haudio" in
          destruct (process_audio_total w v s) as [r H]
      | |- context [bind (audio_from_source ?w ?t ?v) _ ?s] =>
          let H := fresh "Haudio" in
          let F := fresh "Hframe" in
          pose proof (audio_from_source_frame w t v s) as F;
          destruct (audio_from_source w t v s) as [[?|?] ?] eqn:H;
          cbn [snd] in F; subst
      | |- context [bind (file_write ?w ?n ?d) _ ?s] =>
          let H := fresh "Hwrite" in
          destruct (write_error w d) eqn:H
      | |- context [bind (model_transcribe ?w ?n ?ts) _
                      {| files := <[?n := ?d]> ?m; temp_file := ?t |}] =>
          let H := fresh "Hmodel" in
          destruct (transcribe w d ts) eqn:H
      | |- context [getattr_text ?o] => unfold getattr_text; destruct (text o) eqn:?
      | |- context [getattr_timestamp ?o] =>
          unfold getattr_timestamp; destruct (timestamp o) eqn:?
      | |- context [if ?b then _ else _] => destruct b eqn:?
      | |- context [match ?x with Some _ => _ | None => _ end] =>
          lazymatch x with
          | context [match _ with _ => _ end] => fail
          | _ => destruct x eqn:?
          end
      end ].

Ltac exec := repeat exec_step.

(** The clock readings reach nothing but [processing_time]. *)
Lemma invoke_try_clock (w : World) (t0 t1 : Q) (request : Request) (s : frame) :
  untimed (fst (invoke_try (set_clock w t0 t1) request s))
  = untimed (fst (invoke_try w request s)) /\
  snd (invoke_try (set_clock w t0 t1) request s) = snd (invoke_try w request s).
Proof.
  unfold invoke_try.
  change (process_audio (set_clock w t0 t1)) with (process_audio w).
  change (NamedTemporaryFile (set_clock w t0 t1)) with (NamedTemporaryFile w).
  change (file_write (set_clock w t0 t1)) with (file_write w).
  change (model_transcribe (set_clock w t0 t1)) with (model_transcribe w).
  destruct (is_json (content_type request)); [|split; reflexivity].
  destruct (get_json request) as [input_data|e]; [|split; reflexivity].
  destruct input_data; try (split; reflexivity).
  exec; split; reflexivity.
Qed.

(** The [language] field reaches nothing. *)
Lemma invoke_try_language (w : World) (ct : option string) (o1 o2 : dict) (s : frame) :
  (forall k, k <> "language" -> dict_lookup k o1 = dict_lookup k o2) ->
  invoke_try w {| content_type := ct; get_json := Ret (JObj o1) |} s
  = invoke_try w {| content_type := ct; get_json := Ret (JObj o2) |} s.
Proof.
  intros H. unfold invoke_try. cbn [content_type get_json].
  destruct (is_json ct); [|reflexivity].
  run. rewrite (H "audio"), (H "timestamps") by discriminate. reflexivity.
Qed.

Lemma invoke_clock (w : World) (t0 t1 : Q) (request : Request) (fs : gmap string (list byte)) :
  untimed (fst (invoke (set_clock w t0 t1) request fs)) = untimed (fst (invoke w request fs)) /\
  snd (invoke (set_clock w t0 t1) request fs) = snd (invoke w request fs).
Proof.
  destruct (invoke_try_clock w t0 t1 request (frame0 fs)) as [Hr Hs].
  destruct (invoke_try (set_clock w t0 t1) request (frame0 fs)) as [r1 s1] eqn:E1.
  destruct (invoke_try w request (frame0 fs)) as [r2 s2] eqn:E2.
  rewrite (invoke_run _ _ _ _ _ E1), (invoke_run _ _ _ _ _ E2).
  cbn [fst snd] in *. subst s2. split; [|reflexivity].
  destruct r1, r2; cbn in *; congruence.
Qed.

End ServeFacts.

Module InferenceFacts.
Import Inference.
Import ServeFacts.

(** The [finally] clause of [predict_fn] never raises either: it unlinks
    only a file it has just found. *)
Lemma predict_fn_finally_run (s : frame) :
  predict_fn_finally s =
  (Ret tt,
   {| files := match temp_file s with
               | Some name => if String.eqb name EmptyString then files s
                              else delete name (files s)
               | None => files s
               end;
      temp_file := temp_file s |}).
Proof.
  unfold predict_fn_finally. rewrite (bind_Ret _ _ _ _ _ (temp_file_to_remove_run s)).
  destruct s as [fs [name|]]; cbn [temp_file files]; [|reflexivity].
  destruct (String.eqb name EmptyString); [reflexivity|]. cbn [negb andb].
  destruct (fs !! name) as [d|] eqn:E.
  - rewrite bool_decide_eq_true_2 by eauto.
    unfold os_unlink. cbn [files temp_file]. now rewrite E.
  - rewrite bool_decide_eq_false_2 by (intros [? ?]; congruence).
    unfold ret. now rewrite delete_id.
Qed.

(** [predict_fn] in terms of its [try] block. *)
Lemma predict_fn_run (w : World) (input_data : json) (fs : gmap string (list byte))
    (r : outcome dict) (s : frame) :
  predict_fn_try w input_data (frame0 fs) = (r, s) ->
  predict_fn w input_data fs =
  (Ret (match r with Ret d => d | Exc e => [("error", JStr e)] end),
   match temp_file s with
   | Some name => if String.eqb name EmptyString then files s else delete name (files s)
   | None => files s
   end).
Proof.
  intros H. unfold predict_fn.
  destruct r as [d|e].
  - rewrite (try_finally_Ret _ _ _ _ _ _
               (try_except_Ret _ predict_fn_except _ _ _ H) (predict_fn_finally_run s)).
    reflexivity.
  - assert (try_except (predict_fn_try w input_data) predict_fn_except (frame0 fs)
            = (Ret [("error", JStr e)], s)) as H'.
    { now rewrite (try_except_Exc _ _ _ _ _ H). }
    rewrite (try_finally_Ret _ _ _ _ _ _ H' (predict_fn_finally_run s)).
    reflexivity.
Qed.

Lemma predict_fn_try_frame (w : World) (input_data : json) (fs : gmap string (list byte)) :
  let name := temp_name w ".wav" in
  let s := snd (predict_fn_try w input_data (frame0 fs)) in
  s = frame0 fs \/
  (s = {| files := <[name := []]> fs; temp_file := None |} /\
   exists data e, write_error w data = Some e) \/
  (exists data, s = {| files := <[name := data]> (<[name := []]> fs);
                       temp_file := Some name |}).
Proof.
  cbv zeta.
  set (P := fun s : frame =>
         s = frame0 fs \/
         (s = {| files := <[temp_name w ".wav" := []]> fs; temp_file := None |} /\
          exists data e, write_error w data = Some e) \/
         (exists data, s = {| files := <[temp_name w ".wav" := data]>
                                         (<[temp_name w ".wav" := []]> fs);
                              temp_file := Some (temp_name w ".wav") |})).
  change (P (snd (predict_fn_try w input_data (frame0 fs)))).
  assert (P (frame0 fs)) as P0 by (left; reflexivity).
  unfold predict_fn_try.
  destruct input_data; try exact P0.
  exec; try exact P0.
  all: first [ right; left; split; [reflexivity | eauto]
             | right; right; eexists; reflexivity ].
Qed.


Lemma predict_fn_try_clock (w : World) (t0 t1 : Q) (input_data : json) (s : frame) :
  untimed (fst (predict_fn_try (set_clock w t0 t1) input_data s))
  = untimed (fst (predict_fn_try w input_data s)) /\
  snd (predict_fn_try (set_clock w t0 t1) input_data s) = snd (predict_fn_try w input_data s).
Proof.
  unfold predict_fn_try.
  change (audio_from_source (set_clock w t0 t1)) with (audio_from_source w).
  change (NamedTemporaryFile (set_clock w t0 t1)) with (NamedTemporaryFile w).
  change (file_write (set_clock w t0 t1)) with (file_write w).
  change (model_transcribe (set_clock w t0 t1)) with (model_transcribe w).
  destruct input_data; try (split; reflexivity).
  exec; split; reflexivity.
Qed.

Lemma predict_fn_try_language (w : World) (o1 o2 : dict) (s : frame) :
  (forall k, k <> "language" -> dict_lookup k o1 = dict_lookup k o2) ->
  predict_fn_try w (JObj o1) s = predict_fn_try w (JObj o2) s.
Proof.
  intros H. unfold predict_fn_try.
  run. rewrite (H "audio"), (H "timestamps") by discriminate. reflexivity.
Qed.

Lemma predict_fn_clock (w : World) (t0 t1 : Q) (input_data : json)
    (fs : gmap string (list byte)) :
  untimed (fst (predict_fn (set_clock w t0 t1) input_data fs))
  = untimed (fst (predict_fn w input_data fs)) /\
  snd (predict_fn (set_clock w t0 t1) input_data fs) = snd (predict_fn w input_data fs).
Proof.
  destruct (predict_fn_try_clock w t0 t1 input_data (frame0 fs)) as [Hr Hs].
  destruct (predict_fn_try (set_clock w t0 t1) input_data (frame0 fs)) as [r1 s1] eqn:E1.
  destruct (predict_fn_try w input_data (frame0 fs)) as [r2 s2] eqn:E2.
  rewrite (predict_fn_run _ _ _ _ _ E1), (predict_fn_run _ _ _ _ _ E2).
  cbn [fst snd] in *. subst s2. split; [|reflexivity].
  destruct r1, r2; cbn in *; congruence.
Qed.

Lemma predict_fn_files (w : World) (input_data : json) (fs : gmap string (list byte)) :
  fs !! temp_name w ".wav" = None ->
  snd (predict_fn w input_data fs) = fs \/
  (snd (predict_fn w input_data fs) = <[temp_name w ".wav" := []]> fs /\
   exists data e, write_error w data = Some e).
Proof.
  intros Hfresh.
  pose proof (predict_fn_try_frame w input_data fs) as Hs. cbv zeta in Hs.
  destruct (predict_fn_try w input_data (frame0 fs)) as [r s] eqn:E.
  rewrite (predict_fn_run _ _ _ _ _ E). cbn [snd] in *.
  destruct Hs as [-> | [[-> Hw] | [data ->]]]; cbn [temp_file files frame0].
  - now left.
  - right. now split.
  - left. rewrite temp_name_not_empty.
    rewrite delete_insert_eq, delete_insert_eq. now apply delete_id.
Qed.

End InferenceFacts.

(** ** Audio ingestion and base64 *)

Module IngestionFacts.
Import Base64 Base64Facts.

Lemma data_url_payload (timeout : Z) (w : World) (payload : string) (s : frame) :
  audio_from_source w timeout (JStr ("data:audio/wav;base64," ++ payload)) s
  = match b64decode payload with
    | Ret data => (Ret (Some data), s)
    | Exc e => (Exc e, s)
    end.
Proof.
  unfold audio_from_source.
  change (Py.startswith ("data:audio/wav;base64," ++ payload) "data:") with true.
  change (Py.contains "," ("data:audio/wav;base64," ++ payload)) with true.
  change (Py.split1 "," ("data:audio/wav;base64," ++ payload))
    with ["data:audio/wav;base64"; payload].
  cbv iota. run. unfold bind, lift, ret.
  now destruct (b64decode payload).
Qed.

Lemma bare_base64 (timeout : Z) (w : World) (data : list byte) (s : frame) :
  Py.contains "/" (b64encode data) = false ->
  audio_from_source w timeout (JStr (b64encode data)) s = (Ret (Some data), s).
Proof.
  intros Hslash. unfold audio_from_source.
  rewrite b64encode_not_data_url, Hslash, b64encode_no_backslash. cbn [orb].
  rewrite (bind_Ret _ _ _ _ _ (f_equal (fun r => (r, s)) (b64decode_b64encode data))).
  reflexivity.
Qed.

(** The object form [{"data": base64(b)}], the one the test client sends,
    is decoded back to [b] whatever characters the encoding holds. *)
Lemma data_field_roundtrip (timeout : Z) (w : World) (o : dict) (data : list byte) (s : frame) :
  dict_lookup "data" o = Some (JStr (b64encode data)) ->
  audio_from_source w timeout (JObj o) s = (Ret (Some data), s).
Proof.
  intros Ho. unfold audio_from_source. rewrite Ho, b64encode_not_data_url.
  run.
  rewrite (bind_Ret _ _ _ _ _ (f_equal (fun r => (r, s)) (b64decode_b64encode data))).
  reflexivity.
Qed.

(** C3, as the code has it.  A data URL ["data:audio/wav;base64," ++
    base64(b)] is decoded back to [b], by [process_audio] and by the chain
    inside [predict_fn]; the bare string [base64(b)] is decoded back to
    [b] whenever it holds no ["/"], the character that makes the chain
    read the string as a file path. *)
Theorem audio_ingestion_roundtrip (w : World) (data : list byte) (s : frame) :
  Serve.process_audio w (JStr ("data:audio/wav;base64," ++ b64encode data)) s
    = (Ret (Some data), s) /\
  audio_from_source w 30 (JStr ("data:audio/wav;base64," ++ b64encode data)) s
    = (Ret (Some data), s) /\
  (Py.contains "/" (b64encode data) = false ->
   Serve.process_audio w (JStr (b64encode data)) s = (Ret (Some data), s) /\
   audio_from_source w 30 (JStr (b64encode data)) s = (Ret (Some data), s)).
Proof.
  assert (forall t, audio_from_source w t (JStr ("data:audio/wav;base64," ++ b64encode data)) s
                    = (Ret (Some data), s)) as Hurl.
  { intros t. rewrite data_url_payload. now rewrite b64decode_b64encode. }
  split; [|split].
  - unfold Serve.process_audio. now rewrite (try_except_Ret _ _ _ _ _ (Hurl 60%Z)).
  - apply Hurl.
  - intros Hslash. split.
    + unfold Serve.process_audio.
      now rewrite (try_except_Ret _ _ _ _ _ (bare_base64 60 w data s Hslash)).
    + now apply bare_base64.
Qed.

Lemma audio_ingestion_roundtrip_witness :
  Serve.process_audio Scenario.quiet (JStr (b64encode [x68; x69])) (frame0 ∅)
    = (Ret (Some [x68; x69]), frame0 ∅) /\
  audio_from_source Scenario.quiet 30 (JStr (b64encode [x68; x69])) (frame0 ∅)
    = (Ret (Some [x68; x69]), frame0 ∅).
Proof.
  apply (audio_ingestion_roundtrip Scenario.quiet [x68; x69] (frame0 ∅)).
  reflexivity.
Defined.

(** C3, as stated, fails on a bare base64 string that holds a ["/"]: the
    byte 255 is encoded as ["/w=="], which is taken for a path and opened
    as a file. *)
Lemma bare_base64_with_slash_is_a_path :
  b64encode [xff] = "/w==" /\
  fst (Serve.process_audio Scenario.quiet (JStr (b64encode [xff])) (frame0 ∅)) = Ret None /\
  fst (Serve.process_audio Scenario.quiet (JStr (b64encode [xff])) (frame0 ∅))
    <> Ret (Some [xff]) /\
  fst (audio_from_source Scenario.quiet 30 (JStr (b64encode [xff])) (frame0 ∅))
    = Exc "[Errno 2] No such file or directory: '/w=='".
Proof.
  split; [reflexivity|]. split; [reflexivity|]. split; [|reflexivity].
  vm_compute. discriminate.
Qed.

End IngestionFacts.

(** ** Both handlers *)

(** C2 at the failing input.  With [timestamps] true and a hypothesis
    whose [timestamp] is [None], [predict_fn] returns the attribute as it
    is, [null], where [invoke] returns an object with an empty [word]
    list. *)
Theorem predict_fn_timestamps_are_raw :
  fst (Inference.predict_fn Scenario.no_stamps (JObj Scenario.stamped_request) ∅)
  = Ret [("text", JStr "hello"); ("timestamps", JNull);
         ("processing_time", JFloat (1234 # 1000)); ("model", JStr MODEL_NAME)] /\
  fst (Serve.invoke Scenario.no_stamps (Serve.json_request (JObj Scenario.stamped_request)) ∅)
  = Ret (Serve.jsonify
           [("text", JStr "hello"); ("timestamps", JObj [("word", JArr [])]);
            ("processing_time", JFloat (1234 # 1000)); ("model", JStr MODEL_NAME)] 200).
Proof. split; vm_compute; reflexivity. Qed.




(** C6. Two requests that differ only in their [language] field are
    answered alike: apart from [processing_time], which follows the
    clock, the responses of [invoke] are equal, the results of
    [predict_fn] are equal, and the file system is left the same. *)
Theorem language_is_ignored (w : World) (t0 t1 t0' t1' : Q) (ct : option string)
    (o1 o2 : dict) (fs : gmap string (list byte)) :
  (forall k, k <> "language" -> dict_lookup k o1 = dict_lookup k o2) ->
  let request o := {| Serve.content_type := ct; Serve.get_json := Ret (JObj o) |} in
  (Serve.untimed (fst (Serve.invoke (set_clock w t0 t1) (request o1) fs))
   = Serve.untimed (fst (Serve.invoke (set_clock w t0' t1') (request o2) fs)) /\
   snd (Serve.invoke (set_clock w t0 t1) (request o1) fs)
   = snd (Serve.invoke (set_clock w t0' t1') (request o2) fs)) /\
  (Inference.untimed (fst (Inference.predict_fn (set_clock w t0 t1) (JObj o1) fs))
   = Inference.untimed (fst (Inference.predict_fn (set_clock w t0' t1') (JObj o2) fs)) /\
   snd (Inference.predict_fn (set_clock w t0 t1) (JObj o1) fs)
   = snd (Inference.predict_fn (set_clock w t0' t1') (JObj o2) fs)).
Proof.
  intros H request. split.
  - destruct (ServeFacts.invoke_clock w t0 t1 (request o1) fs) as [-> ->].
    destruct (ServeFacts.invoke_clock w t0' t1' (request o2) fs) as [-> ->].
    assert (Serve.invoke w (request o1) fs = Serve.invoke w (request o2) fs) as ->; [|auto].
    unfold Serve.invoke.
    unfold try_finally, try_except. unfold request.
    now rewrite (ServeFacts.invoke_try_language w ct o1 o2 (frame0 fs) H).
  - destruct (InferenceFacts.predict_fn_clock w t0 t1 (JObj o1) fs) as [-> ->].
    destruct (InferenceFacts.predict_fn_clock w t0' t1' (JObj o2) fs) as [-> ->].
    assert (Inference.predict_fn w (JObj o1) fs = Inference.predict_fn w (JObj o2) fs)
      as ->; [|auto].
    unfold Inference.predict_fn.
    unfold try_finally, try_except.
    now rewrite (InferenceFacts.predict_fn_try_language w o1 o2 (frame0 fs) H).
Qed.

Lemma language_is_ignored_witness :
  Serve.untimed (fst (Serve.invoke (set_clock Scenario.quiet 0 1)
     (Serve.json_request (JObj (("language", JStr "fr") :: Scenario.plain_request))) ∅))
  = Serve.untimed (fst (Serve.invoke (set_clock Scenario.quiet 5 7)
     (Serve.json_request (JObj Scenario.plain_request)) ∅)).
Proof.
  refine (proj1 (proj1 (language_is_ignored Scenario.quiet 0 1 5 7 (Some "application/json")
                          (("language", JStr "fr") :: Scenario.plain_request)
                          Scenario.plain_request ∅ _))).
  intros k Hk. cbn [dict_lookup].
  destruct (String.eqb_spec "language" k) as [E|_]; [congruence | reflexivity].
Defined.

(** ** The provisioning client *)

Module DeployFacts.
Import Deploy.





(** Zero-padded fields have the width asked for, for every value in range. *)
Lemma two_digits_ok : all_below (fun n => has_shape "dd" (zero_padded 2 n)) 100 = true.
Proof. vm_compute. reflexivity. Qed.

Lemma four_digits_ok :
  all_below (fun n => has_shape "dddd" (zero_padded 4 n)) (N.to_nat 10000) = true.
Proof. vm_compute. reflexivity. Qed.

Lemma two_digits (n : N) : (n <= 99)%N -> has_shape "dd" (zero_padded 2 n) = true.
Proof. intros H. apply (all_below_spec _ 100 two_digits_ok). lia. Qed.

Lemma four_digits (n : N) : (n <= 9999)%N -> has_shape "dddd" (zero_padded 4 n) = true.
Proof. intros H. apply (all_below_spec _ _ four_digits_ok). lia. Qed.

Lemma has_shape_app (p1 p2 s1 s2 : string) :
  has_shape p1 s1 = true -> has_shape p2 s2 = true ->
  has_shape (p1 ++ p2) (s1 ++ s2) = true.
Proof.
  revert s1. induction p1 as [|p p1 IH]; intros s1 H1 H2.
  - destruct s1; [exact H2 | discriminate].
  - destruct s1 as [|c s1]; [discriminate|].
    cbn [has_shape] in H1. apply andb_prop in H1 as [Hc H1].
    change (has_shape (String p (p1 ++ p2)) (String c (s1 ++ s2)) = true).
    cbn [has_shape]. apply andb_true_intro. split; [exact Hc | now apply IH].
Qed.

(** [strftime] writes [YYYY-MM-DD-HH-MM-SS]. *)
Lemma strftime_shape (now : datetime) :
  valid now -> has_shape "dddd-dd-dd-dd-dd-dd" (strftime now) = true.
Proof.
  intros (Hy & Hm & Hd & Hh & Hmi & Hs). unfold strftime.
  change "dddd-dd-dd-dd-dd-dd"
    with ("dddd" ++ "-" ++ "dd" ++ "-" ++ "dd" ++ "-" ++ "dd" ++ "-" ++ "dd" ++ "-" ++ "dd").
  repeat (apply has_shape_app; [first [apply four_digits | apply two_digits | reflexivity]; lia|]).
  apply two_digits. lia.
Qed.

(** C9, as the code has it.  The three names of a deployment are
    [parakeet-tdt-<ts>] for the model, [parakeet-config-<ts>] for the
    configuration and [parakeet-asr-<ts>] for the endpoint, where [<ts>]
    is the one time stamp [YYYY-MM-DD-HH-MM-SS] of the start of the
    deployment; these are the names sent to the service, in that order,
    and the endpoint name is the one returned. *)
Theorem deploy_names (sm : SageMaker) (now : datetime) :
  valid now ->
  let ts := strftime now in
  has_shape "dddd-dd-dd-dd-dd-dd" ts = true /\
  model_name ts = "parakeet-tdt-" ++ ts /\
  endpoint_config_name ts = "parakeet-config-" ++ ts /\
  endpoint_name ts = "parakeet-asr-" ++ ts /\
  (exists k,
     calls (snd (deploy sm now []))
     = firstn k [CreateModel (model_name ts) IMAGE_URI ROLE;
                 CreateEndpointConfig (endpoint_config_name ts) (model_name ts) INSTANCE_TYPE;
                 CreateEndpoint (endpoint_name ts) (endpoint_config_name ts);
                 WaitEndpointInService (endpoint_name ts) 30 60]) /\
  (forall name, fst (deploy sm now []) = Ret name -> name = endpoint_name ts).
Proof.
  intros Hvalid ts.
  split; [now apply strftime_shape|].
  do 3 (split; [reflexivity|]).
  unfold deploy. fold ts. unfold bind, api, print, ret. cbn [app].
  destruct (create_model sm (model_name ts)) as [[]|e1].
  2:{ split; [exists 1%nat; reflexivity | discriminate]. }
  destruct (create_endpoint_config sm (endpoint_config_name ts) (model_name ts)) as [[]|e2].
  2:{ split; [exists 2%nat; reflexivity | discriminate]. }
  destruct (create_endpoint sm (endpoint_name ts) (endpoint_config_name ts)) as [[]|e3].
  2:{ split; [exists 3%nat; reflexivity | discriminate]. }
  destruct (wait_endpoint_in_service sm (endpoint_name ts)) as [[]|e4].
  2:{ split; [exists 4%nat; reflexivity | discriminate]. }
  split; [exists 4%nat; reflexivity|].
  cbn. now intros name [= <-].
Qed.

Lemma deploy_names_witness :
  has_shape "dddd-dd-dd-dd-dd-dd" (strftime sample_time) = true /\
  fst (deploy obliging sample_time []) = Ret "parakeet-asr-2026-11-03-17-26-05".
Proof.
  assert (valid sample_time) as Hvalid by (unfold valid, sample_time; cbn; lia).
  destruct (deploy_names obliging sample_time Hvalid) as (Hshape & _ & _ & _ & _ & _).
  split; [exact Hshape | reflexivity].
Defined.

Lemma string_length_app (s1 s2 : string) :
  String.length (s1 ++ s2) = (String.length s1 + String.length s2)%nat.
Proof.
  induction s1 as [|c s1 IH]; [reflexivity|].
  change (S (String.length (s1 ++ s2)) = S (String.length s1 + String.length s2)).
  now rewrite IH.
Qed.

(** C9, as stated, fails: read with [model], [config] and [endpoint] as
    the tags, the pattern does not fit the names [deploy] builds, whose
    tags are [tdt], [config] and [asr]. *)
Lemma deploy_names_are_not_tagged_by_kind :
  ~ tagged_by_kind (strftime sample_time)
      (model_name (strftime sample_time),
       endpoint_config_name (strftime sample_time),
       endpoint_name (strftime sample_time)).
Proof.
  intros [prefix H].
  apply (f_equal (fun names => fst (fst names))) in H. cbn [fst] in H.
  change (strftime sample_time) with "2026-11-03-17-26-05" in H.
  unfold model_name in H.
  assert (String.length prefix = 6%nat) as Hlen.
  { apply (f_equal String.length) in H.
    rewrite !string_length_app in H. cbn in H. lia. }
  destruct prefix as [|c1 [|c2 [|c3 [|c4 [|c5 [|c6 [|c7 rest]]]]]]]; try discriminate Hlen.
  cbn [append] in H. injection H as _ _ _ _ _ _ H. discriminate H.
Qed.

End DeployFacts.

(** * Further properties of the code *)

(** ** Audio ingestion *)

Module IngestionMore.
Import Base64 Base64Lenient.

Lemma alphabet_chars_ok : all_below alphabet_char_ok 256 = true.
Proof. vm_compute. reflexivity. Qed.

Lemma in_alphabet_facts (c : ascii) :
  in_alphabet c = true ->
  Py.is_ascii c = true /\ Ascii.eqb c BASE64_PAD = false /\
  Ascii.eqb c ":" = false /\ Ascii.eqb c "\" = false.
Proof.
  intros Hc.
  pose proof (all_below_spec _ _ alphabet_chars_ok (N_of_ascii c) (N_ascii_bounded c)) as H.
  unfold alphabet_char_ok in H. cbv zeta in H.
  rewrite ascii_N_embedding, Hc in H. cbn [implb] in H.
  repeat (apply andb_prop in H as [H ?]).
  repeat match goal with X : negb _ = true |- _ => apply negb_true_iff in X end.
  auto.
Qed.

(** The decoding loop on a character it skips, and on one of the alphabet. *)
Lemma a2b_loop_skip (c : ascii) rest quad_pos leftchar pads bin_data :
  significant c = false ->
  a2b_loop (String c rest) quad_pos leftchar pads bin_data
  = a2b_loop rest quad_pos leftchar pads bin_data.
Proof.
  unfold significant, in_alphabet. intros H. apply orb_false_elim in H as [Hp Ha].
  cbn [a2b_loop]. rewrite Hp. now destruct (table_a2b c).
Qed.

Lemma a2b_loop_keep (s : string) :
  forall quad_pos leftchar pads bin_data,
    a2b_loop (keep s) quad_pos leftchar pads bin_data
    = a2b_loop s quad_pos leftchar pads bin_data.
Proof.
  induction s as [|c s IH]; intros quad_pos leftchar pads bin_data; [reflexivity|].
  cbn [keep]. destruct (significant c) eqn:Hc.
  - cbn [a2b_loop]. destruct (Ascii.eqb c BASE64_PAD).
    + destruct (2 <=? quad_pos)%N; [destruct (4 <=? quad_pos + (pads + 1))%N|];
        first [reflexivity | apply IH].
    + destruct (table_a2b c); [|apply IH].
      destruct quad_pos as [|[[]|[]|]]; apply IH.
  - rewrite a2b_loop_skip by assumption. apply IH.
Qed.

Lemma keep_ascii (s : string) : Py.all_ascii s = true -> Py.all_ascii (keep s) = true.
Proof.
  induction s as [|c s IH]; [reflexivity|].
  cbn [Py.all_ascii keep]. intros H. apply andb_prop in H as [Hc Hs].
  destruct (significant c); [cbn [Py.all_ascii]; rewrite Hc|]; now apply IH.
Qed.

Lemma keep_contains (x : ascii) (s : string) :
  Py.contains x s = false -> Py.contains x (keep s) = false.
Proof.
  induction s as [|c s IH]; [reflexivity|].
  cbn [Py.contains keep]. destruct (Ascii.eqb c x) eqn:E; [discriminate|].
  intros H. destruct (significant c); [cbn [Py.contains]; rewrite E|]; now apply IH.
Qed.

Lemma keep_not_data_url (s : string) : Py.startswith (keep s) "data:" = false.
Proof.
  unfold Py.startswith. destruct (String.prefix "data:" (keep s)) eqn:E; [|reflexivity].
  assert (Base64Checks.all_chars significant (keep s) = true) as Hall.
  { clear E. induction s as [|c s IH]; [reflexivity|].
    cbn [keep]. destruct (significant c) eqn:Hc; [|exact IH].
    cbn [Base64Checks.all_chars]. now rewrite Hc, IH. }
  pose proof (Base64Facts.all_chars_prefix significant _ _ E Hall) as H.
  discriminate H.
Qed.

(** [b64decode] does not validate: it decodes what is left of the string
    once every character outside the alphabet and the pad is dropped. *)
Lemma b64decode_keep (s : string) :
  Py.all_ascii s = true -> b64decode (keep s) = b64decode s.
Proof.
  intros H. unfold b64decode, a2b_base64.
  rewrite H, (keep_ascii s H). apply a2b_loop_keep.
Qed.

(** X1. A bare string without path separator is decoded leniently:
    [process_audio], and the chain inside [predict_fn], give on it what
    they give on the string stripped of every character outside the
    base64 alphabet and the pad.  Line breaks and blanks inside the
    base64 text do no harm, and a typing error is not reported. *)
Theorem bare_string_is_decoded_leniently (w : World) (s : string) (f : frame) :
  Py.all_ascii s = true ->
  Py.startswith s "data:" = false ->
  Py.contains "/" s = false ->
  Py.contains "\" s = false ->
  Serve.process_audio w (JStr s) f = Serve.process_audio w (JStr (keep s)) f /\
  audio_from_source w 30 (JStr s) f = audio_from_source w 30 (JStr (keep s)) f.
Proof.
  intros Hascii Hdata Hslash Hback.
  assert (forall t, audio_from_source w t (JStr s) f = audio_from_source w t (JStr (keep s)) f)
    as H.
  { intros t. unfold audio_from_source.
    rewrite Hdata, Hslash, Hback, keep_not_data_url,
      (keep_contains _ _ Hslash), (keep_contains _ _ Hback).
    cbn [orb]. unfold bind, lift. now rewrite (b64decode_keep s Hascii). }
  split; [|apply H].
  unfold Serve.process_audio, try_except. now rewrite (H 60%Z).
Qed.

Lemma bare_string_is_decoded_leniently_witness :
  Serve.process_audio Scenario.quiet (JStr "aG k=!") (frame0 ∅)
  = Serve.process_audio Scenario.quiet (JStr "aGk=") (frame0 ∅).
Proof.
  refine (proj1 (bare_string_is_decoded_leniently Scenario.quiet "aG k=!" (frame0 ∅) _ _ _ _));
    reflexivity.
Defined.

Lemma alphabet_only_facts (s : string) :
  alphabet_only s = true ->
  Py.all_ascii s = true /\ Py.startswith s "data:" = false /\ Py.contains "\" s = false.
Proof.
  intros H.
  assert (Base64Checks.all_chars
            (fun c => Py.is_ascii c && negb (Ascii.eqb c ":") && negb (Ascii.eqb c "\")) s
          = true) as Hall.
  { induction s as [|c s IH]; [reflexivity|].
    cbn [alphabet_only] in H. apply andb_prop in H as [Hc Hs].
    destruct (in_alphabet_facts c Hc) as (H1 & _ & H2 & H3).
    cbn [Base64Checks.all_chars]. now rewrite H1, H2, H3, IH. }
  split; [|split].
  - rewrite <- Base64Facts.all_chars_ascii.
    eapply Base64Facts.all_chars_weaken; [|exact Hall].
    intros c Hc. apply andb_prop in Hc as [Hc _]. now apply andb_prop in Hc as [Hc _].
  - unfold Py.startswith. destruct (String.prefix "data:" s) eqn:E; [|reflexivity].
    pose proof (Base64Facts.all_chars_prefix _ _ _ E Hall) as H'. discriminate H'.
  - eapply Base64Facts.all_chars_contains; [|exact Hall]. reflexivity.
Qed.

(** On a string of alphabet characters the loop only counts: it ends well
    exactly when it ends at the start of a quad. *)
Lemma a2b_loop_alphabet (s : string) :
  forall quad_pos leftchar pads bin_data,
    alphabet_only s = true -> (quad_pos < 4)%N ->
    is_ret (a2b_loop s quad_pos leftchar pads bin_data)
    = ((quad_pos + N.of_nat (String.length s)) mod 4 =? 0)%N.
Proof.
  induction s as [|c s IH]; intros quad_pos leftchar pads bin_data Hs Hq.
  - cbn [a2b_loop String.length]. rewrite N.add_0_r, N.mod_small by assumption.
    destruct (quad_pos =? 0)%N; [reflexivity|]. now destruct (quad_pos =? 1)%N.
  - cbn [alphabet_only] in Hs. apply andb_prop in Hs as [Hc Hs].
    destruct (in_alphabet_facts c Hc) as (_ & Hpad & _ & _).
    unfold in_alphabet in Hc. cbn [a2b_loop]. rewrite Hpad.
    destruct (table_a2b c) as [v|]; [|discriminate].
    assert (forall q' : N, (q' < 4)%N ->
              ((q' + N.of_nat (String.length s)) mod 4
               = (quad_pos + N.of_nat (String.length (String c s))) mod 4)%N ->
              forall l' p' b',
                is_ret (a2b_loop s q' l' p' b')
                = ((quad_pos + N.of_nat (String.length (String c s))) mod 4 =? 0)%N) as Hstep.
    { intros q' Hq' E l' p' b'. rewrite IH by assumption. now rewrite E. }
    cbn [String.length] in *. rewrite Nat2N.inj_succ in *.
    assert (quad_pos = 0 \/ quad_pos = 1 \/ quad_pos = 2 \/ quad_pos = 3)%N
      as [-> | [-> | [-> | ->]]] by lia; apply Hstep; try lia.
    + f_equal. lia.
    + f_equal. lia.
    + f_equal. lia.
    + replace (3 + N.succ (N.of_nat (String.length s)))%N
        with (0 + N.of_nat (String.length s) + 1 * 4)%N by lia.
      now rewrite N.Div0.mod_add.
Qed.

Lemma b64decode_unpadded (s : string) :
  alphabet_only s = true ->
  (N.of_nat (String.length s) mod 4 <> 0)%N ->
  exists e, b64decode s = Exc e.
Proof.
  intros Hs Hlen. destruct (alphabet_only_facts s Hs) as (Hascii & _ & _).
  unfold b64decode, a2b_base64. rewrite Hascii.
  pose proof (a2b_loop_alphabet s 0 0 0 [] Hs ltac:(lia)) as H.
  rewrite N.add_0_l in H. apply N.eqb_neq in Hlen. rewrite Hlen in H.
  destruct (a2b_loop s 0 0 0 []) as [d|e]; [discriminate | eauto].
Qed.

(** X2. Base64 text without padding whose length is not a multiple of
    four is refused: [invoke] answers 400 and [predict_fn] returns an
    error body, and nothing is written. *)
Theorem unpadded_base64_is_refused (w : World) (o : dict) (s : string)
    (fs : gmap string (list byte)) :
  dict_lookup "audio" o = Some (JStr s) ->
  alphabet_only s = true ->
  Py.contains "/" s = false ->
  (N.of_nat (String.length s) mod 4 <> 0)%N ->
  Serve.invoke w (Serve.json_request (JObj o)) fs
    = (Ret (Serve.jsonify [("error", JStr "Failed to process audio data")] 400), fs) /\
  exists msg, Inference.predict_fn w (JObj o) fs = (Ret [("error", JStr msg)], fs).
Proof.
  intros Ho Hs Hslash Hlen.
  destruct (alphabet_only_facts s Hs) as (_ & Hdata & Hback).
  destruct (b64decode_unpadded s Hs Hlen) as [e He].
  assert (truthy (JStr s) = true) as Ht.
  { destruct s; [exfalso; apply Hlen; reflexivity | reflexivity]. }
  assert (forall t f, audio_from_source w t (JStr s) f = (Exc e, f)) as Hsrc.
  { intros t f. unfold audio_from_source. rewrite Hdata, Hslash, Hback. cbn [orb].
    unfold bind, lift. now rewrite He. }
  split.
  - assert (Serve.invoke_try w (Serve.json_request (JObj o)) (frame0 fs)
            = (Ret (Serve.jsonify [("error", JStr "Failed to process audio data")] 400),
               frame0 fs)) as Htry.
    { unfold Serve.invoke_try. change (Serve.is_json _) with true. cbv iota.
      cbn [Serve.json_request Serve.get_json]. run. rewrite Ho, Ht. cbn [negb].
      unfold Serve.process_audio.
      rewrite (bind_Ret _ _ _ _ _ (try_except_Exc _ _ _ _ _ (Hsrc 60%Z (frame0 fs)))).
      reflexivity. }
    now rewrite (ServeFacts.invoke_run _ _ _ _ _ Htry).
  - exists e.
    assert (Inference.predict_fn_try w (JObj o) (frame0 fs) = (Exc e, frame0 fs)) as Htry.
    { unfold Inference.predict_fn_try. run. rewrite Ho, Ht. cbn [negb].
      now rewrite (bind_Exc _ _ _ _ _ (Hsrc 30%Z (frame0 fs))). }
    now rewrite (InferenceFacts.predict_fn_run _ _ _ _ _ Htry).
Qed.

Lemma unpadded_base64_is_refused_witness :
  Serve.invoke Scenario.quiet (Serve.json_request (JObj [("audio", JStr "aGk")])) ∅
  = (Ret (Serve.jsonify [("error", JStr "Failed to process audio data")] 400), ∅).
Proof.
  refine (proj1 (unpadded_base64_is_refused Scenario.quiet [("audio", JStr "aGk")] "aGk" ∅
                   _ _ _ _)); try reflexivity.
  vm_compute. discriminate.
Defined.



Lemma data_field_data_url (timeout : Z) (w : World) (o : dict) (payload : string) (f : frame) :
  dict_lookup "data" o = Some (JStr ("data:audio/wav;base64," ++ payload)) ->
  audio_from_source w timeout (JObj o) f
  = match b64decode payload with
    | Ret data => (Ret (Some data), f)
    | Exc e => (Exc e, f)
    end.
Proof.
  intros Ho. unfold audio_from_source. rewrite Ho.
  change (Py.startswith ("data:audio/wav;base64," ++ payload) "data:") with true.
  change (Py.split1 "," ("data:audio/wav;base64," ++ payload))
    with ["data:audio/wav;base64"; payload].
  cbv iota. run. unfold bind, lift, ret.
  now destruct (b64decode payload).
Qed.

(** X4. The object form round-trips for every byte sequence: an [audio]
    object whose [data] field is [base64(b)], or the data URL
    ["data:audio/wav;base64," ++ base64(b)], is decoded to [b], whatever
    characters the encoding holds. *)
Theorem data_field_roundtrips (w : World) (o : dict) (data : list byte) (f : frame) :
  dict_lookup "data" o = Some (JStr (b64encode data)) \/
  dict_lookup "data" o = Some (JStr ("data:audio/wav;base64," ++ b64encode data)) ->
  Serve.process_audio w (JObj o) f = (Ret (Some data), f) /\
  audio_from_source w 30 (JObj o) f = (Ret (Some data), f).
Proof.
  intros Ho.
  assert (forall t, audio_from_source w t (JObj o) f = (Ret (Some data), f)) as H.
  { intros t. destruct Ho as [Ho | Ho].
    - now apply IngestionFacts.data_field_roundtrip.
    - rewrite (data_field_data_url t w o _ f Ho).
      now rewrite Base64Facts.b64decode_b64encode. }
  split; [|apply H].
  unfold Serve.process_audio. now rewrite (try_except_Ret _ _ _ _ _ (H 60%Z)).
Qed.

Lemma data_field_roundtrips_witness :
  Serve.process_audio Scenario.quiet (JObj [("data", JStr (b64encode [xff; xff; xff]))])
    (frame0 ∅)
  = (Ret (Some [xff; xff; xff]), frame0 ∅).
Proof.
  refine (proj1 (data_field_roundtrips Scenario.quiet
                   [("data", JStr (b64encode [xff; xff; xff]))] [xff; xff; xff] (frame0 ∅) _)).
  left. reflexivity.
Defined.

(** X5. In the object form [data] comes first: when the object has a
    [data] field, the result is settled by that field alone; the [path]
    field, the files on disk and the network are not looked at. *)
Theorem data_field_takes_precedence (w w' : World) (t t' : Z) (o o' : dict) (v : json)
    (f f' : frame) :
  dict_lookup "data" o = Some v ->
  dict_lookup "data" o' = Some v ->
  fst (audio_from_source w t (JObj o) f) = fst (audio_from_source w' t' (JObj o') f').
Proof.
  intros Ho Ho'. unfold audio_from_source. rewrite Ho, Ho'.
  destruct v; try reflexivity.
  unfold bind, lift, ret, raise.
  destruct (Py.startswith s "data:").
  - destruct (Py.index (Py.split1 "," s) 1) as [p|e]; [|reflexivity].
    now destruct (b64decode p).
  - now destruct (b64decode s).
Qed.

Lemma data_field_takes_precedence_witness :
  fst (audio_from_source Scenario.quiet 60
         (JObj [("data", JStr "aGk="); ("path", JStr "http://example.org/a.wav")]) (frame0 ∅))
  = fst (audio_from_source Scenario.disk_full 30 (JObj [("data", JStr "aGk=")])
           (frame0 {[ "/tmp/a.wav" := [] ]})).
Proof.
  apply (data_field_takes_precedence _ _ _ _ _ _ (JStr "aGk=")); reflexivity.
Defined.

End IngestionMore.

(** ** The handlers *)

Module HandlerMore.
Import ServeFacts InferenceFacts.

Lemma not_json (ct : option string) :
  ct <> Some "application/json" -> Serve.is_json ct = false.
Proof.
  intros H. destruct ct as [s|]; [|reflexivity]. cbn.
  destruct (String.eqb_spec s "application/json") as [->|_]; [now destruct H | reflexivity].
Qed.

(** X6. Every content type other than exactly [application/json] (none
    at all, or one with a parameter such as a charset) is answered 415,
    whatever the body holds, before anything is decoded, fetched or
    written. *)
Theorem other_content_type_is_415 (w : World) (ct : option string) (body : outcome json)
    (fs : gmap string (list byte)) :
  ct <> Some "application/json" ->
  Serve.invoke w {| Serve.content_type := ct; Serve.get_json := body |} fs
  = (Ret (Serve.jsonify
            [("error", JStr ("Unsupported content type: " ++ Serve.content_type_text ct))] 415),
     fs).
Proof.
  intros Hct.
  assert (Serve.invoke_try w {| Serve.content_type := ct; Serve.get_json := body |} (frame0 fs)
          = (Ret (Serve.jsonify
                    [("error", JStr ("Unsupported content type: "
                                     ++ Serve.content_type_text ct))] 415),
             frame0 fs)) as Htry.
  { unfold Serve.invoke_try. cbn [Serve.content_type].
    now rewrite (not_json ct Hct). }
  now rewrite (invoke_run _ _ _ _ _ Htry).
Qed.

Lemma other_content_type_is_415_witness :
  Serve.invoke Scenario.quiet
    {| Serve.content_type := Some "application/json; charset=utf-8";
       Serve.get_json := Ret (JObj Scenario.plain_request) |} ∅
  = (Ret (Serve.jsonify
            [("error", JStr "Unsupported content type: application/json; charset=utf-8")] 415),
     ∅).
Proof.
  apply (other_content_type_is_415 Scenario.quiet (Some "application/json; charset=utf-8")).
  discriminate.
Defined.

(** X7. A body that cannot be parsed, or that is JSON but not an object
    (a list, a string, a number, [null]), is answered 500 by [invoke],
    with the text of the exception; [predict_fn] turns an input that is
    no object into an error body.  Nothing is written. *)
Theorem body_without_fields_is_500 (w : World) (fs : gmap string (list byte)) :
  (forall e,
     Serve.invoke w {| Serve.content_type := Some "application/json";
                       Serve.get_json := Exc e |} fs
     = (Ret (Serve.jsonify [("error", JStr e)] 500), fs)) /\
  (forall body, (forall o, body <> JObj o) ->
     Serve.invoke w (Serve.json_request body) fs
     = (Ret (Serve.jsonify [("error", JStr (attribute_error body "get"))] 500), fs) /\
     Inference.predict_fn w body fs
     = (Ret [("error", JStr (attribute_error body "get"))], fs)).
Proof.
  split.
  - intros e.
    assert (Serve.invoke_try w {| Serve.content_type := Some "application/json";
                                  Serve.get_json := Exc e |} (frame0 fs)
            = (Exc e, frame0 fs)) as Htry by reflexivity.
    now rewrite (invoke_run _ _ _ _ _ Htry).
  - intros body Hbody. split.
    + assert (Serve.invoke_try w (Serve.json_request body) (frame0 fs)
              = (Exc (attribute_error body "get"), frame0 fs)) as Htry.
      { destruct body; try reflexivity. now destruct (Hbody o). }
      now rewrite (invoke_run _ _ _ _ _ Htry).
    + assert (Inference.predict_fn_try w body (frame0 fs)
              = (Exc (attribute_error body "get"), frame0 fs)) as Htry.
      { destruct body; try reflexivity. now destruct (Hbody o). }
      now rewrite (predict_fn_run _ _ _ _ _ Htry).
Qed.

Lemma body_without_fields_is_500_witness :
  Serve.invoke Scenario.quiet (Serve.json_request (JArr [])) ∅
  = (Ret (Serve.jsonify [("error", JStr "'list' object has no attribute 'get'")] 500), ∅).
Proof.
  refine (proj1 (proj2 (body_without_fields_is_500 Scenario.quiet ∅) (JArr []) _)).
  discriminate.
Defined.

(** What the [try] block of [invoke] returns: a 200 with the three
    result fields, or a 400 or 415 with only an error. *)
Lemma invoke_try_answers (w : World) (request : Serve.Request) (s : frame)
    (resp : Serve.Response) :
  fst (Serve.invoke_try w request s) = Ret resp ->
  (Serve.status resp = 200%Z /\
   has_key "text" (Serve.body resp) = true /\
   has_key "processing_time" (Serve.body resp) = true /\
   has_key "model" (Serve.body resp) = true /\
   has_key "error" (Serve.body resp) = false) \/
  ((Serve.status resp = 400%Z \/ Serve.status resp = 415%Z) /\
   exists msg, Serve.body resp = [("error", JStr msg)]).
Proof.
  unfold Serve.invoke_try.
  destruct (Serve.is_json (Serve.content_type request)).
  2:{ cbn. intros [= <-]. right. split; [now right | eauto]. }
  destruct (Serve.get_json request) as [input_data|e]; [|discriminate].
  destruct input_data; try discriminate.
  exec; cbn; try discriminate; intros [= <-];
    first [ left; repeat split; reflexivity
          | right; split; [now left | eexists; reflexivity] ].
Qed.

(** X8. An answer of [invoke] is of one of two kinds, told apart by the
    status: a 200 whose body has [text], [processing_time] and [model]
    and no [error]; or a 400, 415 or 500 whose body is [{"error": msg}]
    and nothing else.  A result of [predict_fn] has [text] and no
    [error], or is [{"error": msg}]. *)
Theorem answer_is_result_or_error (w : World) (fs : gmap string (list byte)) :
  (forall request resp,
     fst (Serve.invoke w request fs) = Ret resp ->
     (Serve.status resp = 200%Z /\
      has_key "text" (Serve.body resp) = true /\
      has_key "processing_time" (Serve.body resp) = true /\
      has_key "model" (Serve.body resp) = true /\
      has_key "error" (Serve.body resp) = false) \/
     ((Serve.status resp = 400%Z \/ Serve.status resp = 415%Z \/ Serve.status resp = 500%Z) /\
      exists msg, Serve.body resp = [("error", JStr msg)])) /\
  (forall input_data d,
     fst (Inference.predict_fn w input_data fs) = Ret d ->
     (has_key "text" d = true /\ has_key "error" d = false) \/
     exists msg, d = [("error", JStr msg)]).
Proof.
  split.
  - intros request resp.
    destruct (Serve.invoke_try w request (frame0 fs)) as [r s] eqn:E.
    rewrite (invoke_run _ _ _ _ _ E). cbn [fst]. intros [= <-].
    destruct r as [resp|e].
    + assert (fst (Serve.invoke_try w request (frame0 fs)) = Ret resp) as Hresp
        by now rewrite E.
      destruct (invoke_try_answers w request (frame0 fs) resp Hresp) as [H | [[H | H] Hmsg]].
      * now left.
      * right. split; auto.
      * right. split; auto.
    + right. split; [now right; right | eauto].
  - intros input_data d.
    destruct (Inference.predict_fn_try w input_data (frame0 fs)) as [r s] eqn:E.
    rewrite (predict_fn_run _ _ _ _ _ E). cbn [fst]. intros [= <-].
    destruct r as [d|e]; [|right; eauto].
    assert (fst (Inference.predict_fn_try w input_data (frame0 fs)) = Ret d) as H
      by now rewrite E.
    clear E. revert H. unfold Inference.predict_fn_try.
    destruct input_data; try discriminate.
    exec; cbn; try discriminate; intros [= <-];
      first [ left; split; reflexivity | right; eexists; reflexivity ].
Qed.

Lemma answer_is_result_or_error_witness :
  has_key "text" [("error", JStr "Missing 'audio' field")] = false /\
  exists msg, [("error", JStr "Missing 'audio' field")] = [("error", JStr msg)].
Proof.
  destruct (proj2 (answer_is_result_or_error Scenario.quiet ∅) (JObj [])
              [("error", JStr "Missing 'audio' field")] eq_refl) as [[H _] | H].
  - discriminate H.
  - split; [reflexivity | exact H].
Defined.

(** What [invoke] answers once the audio is decoded and written: it is
    settled by what the model says of exactly those bytes. *)
Lemma invoke_after_decode (w : World) (o : dict) (fs : gmap string (list byte))
    (v : json) (data : list byte) :
  dict_lookup "audio" o = Some v ->
  truthy v = true ->
  Serve.process_audio w v (frame0 fs) = (Ret (Some data), frame0 fs) ->
  write_error w data = None ->
  fst (Serve.invoke w (Serve.json_request (JObj o)) fs)
  = Ret (let time := JFloat (round3 (time_end w - time_start w)) in
         match transcribe w data (truthy (timestamps_of o)) with
         | Exc e => Serve.jsonify [("error", JStr e)] 500
         | Ret out =>
             if truthy (timestamps_of o) then
               match text out with
               | Some t =>
                   Serve.jsonify
                     [("text", JStr t);
                      ("timestamps", JObj [("word", JArr (Serve.word_list out))]);
                      ("processing_time", time); ("model", JStr MODEL_NAME)] 200
               | None => Serve.jsonify [("error", JStr "object has no attribute 'text'")] 500
               end
             else
               Serve.jsonify
                 [("text", JStr (match text out with Some t => t | None => as_str out end));
                  ("processing_time", time); ("model", JStr MODEL_NAME)] 200
         end).
Proof.
  intros Hv Ht Hdec Hw. cbv zeta.
  destruct (Serve.invoke_try w (Serve.json_request (JObj o)) (frame0 fs)) as [r s] eqn:E.
  rewrite (invoke_run _ _ _ _ _ E). cbn [fst]. f_equal.
  assert (r = fst (Serve.invoke_try w (Serve.json_request (JObj o)) (frame0 fs))) as ->
    by now rewrite E.
  clear E.
  unfold Serve.invoke_try. change (Serve.is_json _) with true. cbv iota.
  cbn [Serve.json_request Serve.get_json]. run.
  rewrite Hv, Ht. cbn [negb]. fold (timestamps_of o).
  destruct (truthy (timestamps_of o)); exec; reflexivity.
Qed.

(** X9. With [timestamps] true, a model call that succeeds on a
    hypothesis with a [text] is answered 200 with [timestamps.word]
    holding one [{word, start, end}] entry for each word span of the
    model, in the model's order; the list is empty when the hypothesis
    has no [timestamp] attribute, when it is [None] or empty, and when it
    has no ["word"] entry. *)
Theorem invoke_lists_word_spans (w : World) (o : dict) (fs : gmap string (list byte))
    (v : json) (data : list byte) (out : asr_output) (t : string) :
  dict_lookup "audio" o = Some v ->
  truthy v = true ->
  Serve.process_audio w v (frame0 fs) = (Ret (Some data), frame0 fs) ->
  write_error w data = None ->
  truthy (timestamps_of o) = true ->
  transcribe w data true = Ret out ->
  text out = Some t ->
  let spans := match timestamp out with
               | Some (Some d) => match spans_lookup "word" d with
                                  | Some l => l
                                  | None => []
                                  end
               | _ => []
               end in
  exists resp words,
    fst (Serve.invoke w (Serve.json_request (JObj o)) fs) = Ret resp /\
    Serve.status resp = 200%Z /\
    dict_lookup "timestamps" (Serve.body resp) = Some (JObj [("word", JArr words)]) /\
    words = map word_entry spans /\
    length words = length spans.
Proof.
  intros Hv Ht Hdec Hw Hts Hout Htext spans.
  rewrite (invoke_after_decode w o fs v data Hv Ht Hdec Hw).
  cbv zeta. rewrite Hts, Hout, Htext.
  eexists. exists (map word_entry spans).
  split; [reflexivity|]. split; [reflexivity|].
  split; [|split; [reflexivity | now rewrite length_map]].
  cbn. unfold Serve.word_list, spans.
  destruct (timestamp out) as [[[|entry more]|]|]; reflexivity.
Qed.

Lemma invoke_lists_word_spans_witness :
  exists resp words,
    fst (Serve.invoke Scenario.quiet (Serve.json_request (JObj Scenario.stamped_request)) ∅)
    = Ret resp /\
    Serve.status resp = 200%Z /\
    dict_lookup "timestamps" (Serve.body resp) = Some (JObj [("word", JArr words)]) /\
    words = map word_entry [{| word := "hello"; start := 0; end_ := 1 # 2 |}] /\
    length words = 1%nat.
Proof.
  apply (invoke_lists_word_spans Scenario.quiet Scenario.stamped_request ∅
           (JStr "data:audio/wav;base64,AAAA") [x00; x00; x00] Scenario.hello "hello");
    reflexivity.
Defined.



(** X11. A request touches no file but its own temporary file: every
    other path holds after the request what it held before, in both
    handlers and on every exit path. *)
Theorem other_files_are_untouched (w : World) (fs : gmap string (list byte)) (p : string) :
  p <> temp_name w ".wav" ->
  (forall request, snd (Serve.invoke w request fs) !! p = fs !! p) /\
  (forall input_data, snd (Inference.predict_fn w input_data fs) !! p = fs !! p).
Proof.
  intros Hp.
  assert (forall s : frame,
            s = frame0 fs \/
            (s = {| files := <[temp_name w ".wav" := []]> fs; temp_file := None |} /\
             exists data e, write_error w data = Some e) \/
            (exists data, s = {| files := <[temp_name w ".wav" := data]>
                                            (<[temp_name w ".wav" := []]> fs);
                                 temp_file := Some (temp_name w ".wav") |}) ->
            match temp_file s with
            | Some name => if String.eqb name EmptyString then files s
                           else delete name (files s)
            | None => files s
            end !! p = fs !! p) as Hkeep.
  { intros s [-> | [[-> _] | [data ->]]]; cbn [temp_file files frame0].
    - reflexivity.
    - now rewrite lookup_insert_ne by congruence.
    - rewrite temp_name_not_empty.
      rewrite lookup_delete_ne by congruence.
      now rewrite !lookup_insert_ne by congruence. }
  split.
  - intros request.
    pose proof (invoke_try_frame w request fs) as Hs. cbv zeta in Hs.
    destruct (Serve.invoke_try w request (frame0 fs)) as [r s] eqn:E.
    rewrite (invoke_run _ _ _ _ _ E). cbn [snd] in *. now apply Hkeep.
  - intros input_data.
    pose proof (predict_fn_try_frame w input_data fs) as Hs. cbv zeta in Hs.
    destruct (Inference.predict_fn_try w input_data (frame0 fs)) as [r s] eqn:E.
    rewrite (predict_fn_run _ _ _ _ _ E). cbn [snd] in *. now apply Hkeep.
Qed.

Lemma other_files_are_untouched_witness :
  snd (Serve.invoke Scenario.quiet (Serve.json_request (JObj Scenario.plain_request))
         {[ "/opt/model.nemo" := [x01] ]}) !! "/opt/model.nemo"
  = Some [x01].
Proof.
  refine (eq_trans
            (proj1 (other_files_are_untouched Scenario.quiet
                      {[ "/opt/model.nemo" := [x01] ]} "/opt/model.nemo" _)
               (Serve.json_request (JObj Scenario.plain_request))) _).
  - discriminate.
  - reflexivity.
Defined.

(** X12. When the write of the temporary file does not raise, a request
    leaves the file system exactly as it found it, whether the model
    answers or raises: the temporary file is gone, in both handlers. *)
Theorem files_are_restored (w : World) (fs : gmap string (list byte)) :
  fs !! temp_name w ".wav" = None ->
  (forall data, write_error w data = None) ->
  (forall request, snd (Serve.invoke w request fs) = fs) /\
  (forall input_data, snd (Inference.predict_fn w input_data fs) = fs).
Proof.
  intros Hfresh Hw. split.
  - intros request.
    destruct (invoke_files w request fs Hfresh) as [H | [_ (data & e & He)]]; [exact H|].
    rewrite Hw in He. discriminate.
  - intros input_data.
    destruct (predict_fn_files w input_data fs Hfresh) as [H | [_ (data & e & He)]]; [exact H|].
    rewrite Hw in He. discriminate.
Qed.

Lemma files_are_restored_witness :
  snd (Serve.invoke Scenario.quiet (Serve.json_request (JObj Scenario.plain_request)) ∅) = ∅.
Proof.
  refine (proj1 (files_are_restored Scenario.quiet ∅ _ _) _); reflexivity.
Defined.

(** X13. The request the test client builds reaches the model intact:
    for every audio file content, [invoke] on the client's payload calls
    the model on exactly those bytes, and answers with its text, or with
    a 500 carrying the model's exception. *)
Theorem client_payload_reaches_the_model (w : World) (audio_bytes : list byte)
    (fs : gmap string (list byte)) :
  write_error w audio_bytes = None ->
  fst (Serve.invoke w (Serve.json_request (JObj (TestClient.payload audio_bytes false))) fs)
  = Ret (match transcribe w audio_bytes false with
         | Ret out =>
             Serve.jsonify
               [("text", JStr (match text out with Some t => t | None => as_str out end));
                ("processing_time", JFloat (round3 (time_end w - time_start w)));
                ("model", JStr MODEL_NAME)] 200
         | Exc e => Serve.jsonify [("error", JStr e)] 500
         end).
Proof.
  intros Hw.
  assert (Serve.process_audio w (JObj [("data", JStr (Base64.b64encode audio_bytes))])
            (frame0 fs) = (Ret (Some audio_bytes), frame0 fs)) as Hdec.
  { unfold Serve.process_audio.
    now rewrite (try_except_Ret _ _ _ _ _
                   (IngestionFacts.data_field_roundtrip 60 w
                      [("data", JStr (Base64.b64encode audio_bytes))] audio_bytes
                      (frame0 fs) eq_refl)). }
  rewrite (invoke_after_decode w (TestClient.payload audio_bytes false) fs _ audio_bytes
             eq_refl eq_refl Hdec Hw).
  cbv zeta. change (truthy (timestamps_of (TestClient.payload audio_bytes false))) with false.
  now destruct (transcribe w audio_bytes false).
Qed.

Lemma client_payload_reaches_the_model_witness :
  fst (Serve.invoke Scenario.quiet
         (Serve.json_request (JObj (TestClient.payload [xff; xfe] false))) ∅)
  = Ret (Serve.jsonify
           [("text", JStr "hello"); ("processing_time", JFloat (round3 (12345 # 10000)));
            ("model", JStr MODEL_NAME)] 200).
Proof.
  apply (client_payload_reaches_the_model Scenario.quiet [xff; xfe] ∅). reflexivity.
Defined.

(** X14. The URL request of the test client: for a [path] that begins
    with [http://] or [https://] the audio is what the fetch returns,
    asked for with a time-out of 60 seconds, and no local file is read;
    a fetch that fails is answered 400, a fetch that succeeds hands
    exactly the fetched bytes to the model. *)
Theorem remote_audio_is_fetched (w : World) (url : string) (fs : gmap string (list byte)) :
  http_prefix url = true ->
  let request := Serve.json_request (JObj (TestClient.url_payload url)) in
  (forall e, requests_get w url 60 = Exc e ->
     Serve.invoke w request fs
     = (Ret (Serve.jsonify [("error", JStr "Failed to process audio data")] 400), fs)) /\
  (forall content, requests_get w url 60 = Ret content ->
     write_error w content = None ->
     fst (Serve.invoke w request fs)
     = Ret (match transcribe w content false with
            | Ret out =>
                Serve.jsonify
                  [("text", JStr (match text out with Some t => t | None => as_str out end));
                   ("processing_time", JFloat (round3 (time_end w - time_start w)));
                   ("model", JStr MODEL_NAME)] 200
            | Exc e => Serve.jsonify [("error", JStr e)] 500
            end)).
Proof.
  intros Hurl request.
  assert (forall f, audio_from_source w 60 (JObj [("path", JStr url)]) f
                    = match requests_get w url 60 with
                      | Ret content => (Ret (Some content), f)
                      | Exc e => (Exc e, f)
                      end) as Hsrc.
  { intros f. unfold audio_from_source. cbn [dict_lookup String.eqb Ascii.eqb Bool.eqb].
    rewrite Hurl. unfold bind, lift, ret. now destruct (requests_get w url 60). }
  split.
  - intros e He.
    assert (Serve.invoke_try w request (frame0 fs)
            = (Ret (Serve.jsonify [("error", JStr "Failed to process audio data")] 400),
               frame0 fs)) as Htry.
    { unfold request, Serve.invoke_try. change (Serve.is_json _) with true. cbv iota.
      cbn [Serve.json_request Serve.get_json]. run.
      change (dict_lookup "audio" (TestClient.url_payload url))
        with (Some (JObj [("path", JStr url)])).
      cbn [truthy negb]. unfold Serve.process_audio.
      assert (audio_from_source w 60 (JObj [("path", JStr url)]) (frame0 fs)
              = (Exc e, frame0 fs)) as H by now rewrite Hsrc, He.
      now rewrite (bind_Ret _ _ _ _ _ (try_except_Exc _ _ _ _ _ H)). }
    now rewrite (invoke_run _ _ _ _ _ Htry).
  - intros content Hc Hw.
    assert (Serve.process_audio w (JObj [("path", JStr url)]) (frame0 fs)
            = (Ret (Some content), frame0 fs)) as Hdec.
    { unfold Serve.process_audio, try_except. now rewrite Hsrc, Hc. }
    unfold request.
    rewrite (invoke_after_decode w (TestClient.url_payload url) fs _ content
               eq_refl eq_refl Hdec Hw).
    cbv zeta. change (truthy (timestamps_of (TestClient.url_payload url))) with false.
    now destruct (transcribe w content false).
Qed.

Lemma remote_audio_is_fetched_witness :
  Serve.invoke Scenario.quiet
    (Serve.json_request (JObj (TestClient.url_payload "https://example.org/a.wav"))) ∅
  = (Ret (Serve.jsonify [("error", JStr "Failed to process audio data")] 400), ∅).
Proof.
  refine (proj1 (remote_audio_is_fetched Scenario.quiet "https://example.org/a.wav" ∅ _)
            "Connection refused" _); reflexivity.
Defined.





End HandlerMore.

(** ** The provisioning client *)

Module DeployMore.
Import Deploy DeployCli.

Ltac client_run :=
  unfold deploy, cleanup, cleanup_try, try_except, bind, api, print, lift, ret;
  cbn [app].

(** X15. [deploy] does not roll back.  Whatever fails, it sends no delete
    request: its requests are creations and the wait for the endpoint,
    and what was created before a failure stays.  It returns the
    endpoint name exactly when all four requests succeed. *)
Theorem deploy_does_not_roll_back (sm : SageMaker) (now : datetime) :
  let ts := strftime now in
  let log := snd (deploy sm now []) in
  Forall (fun c => is_delete c = false) (calls log) /\
  deleted (calls log) = [] /\
  (fst (deploy sm now []) = Ret (endpoint_name ts) <->
   create_model sm (model_name ts) = Ret tt /\
   create_endpoint_config sm (endpoint_config_name ts) (model_name ts) = Ret tt /\
   create_endpoint sm (endpoint_name ts) (endpoint_config_name ts) = Ret tt /\
   wait_endpoint_in_service sm (endpoint_name ts) = Ret tt).
Proof.
  intros ts log. subst log. unfold deploy. fold ts.
  unfold bind, api, print, ret. cbn [app].
  destruct (create_model sm (model_name ts)) as [[]|e1].
  2:{ cbn. split; [repeat constructor|]. split; [reflexivity|].
      split; [discriminate | intros (H & _); discriminate]. }
  destruct (create_endpoint_config sm (endpoint_config_name ts) (model_name ts)) as [[]|e2].
  2:{ cbn. split; [repeat constructor|]. split; [reflexivity|].
      split; [discriminate | intros (_ & H & _); discriminate]. }
  destruct (create_endpoint sm (endpoint_name ts) (endpoint_config_name ts)) as [[]|e3].
  2:{ cbn. split; [repeat constructor|]. split; [reflexivity|].
      split; [discriminate | intros (_ & _ & H & _); discriminate]. }
  destruct (wait_endpoint_in_service sm (endpoint_name ts)) as [[]|e4].
  2:{ cbn. split; [repeat constructor|]. split; [reflexivity|].
      split; [discriminate | intros (_ & _ & _ & H); discriminate]. }
  cbn. split; [repeat constructor|]. split; [reflexivity|]. split; auto.
Qed.

Lemma deploy_does_not_roll_back_witness :
  fst (deploy obliging sample_time []) = Ret (endpoint_name (strftime sample_time)).
Proof.
  apply (proj2 (proj2 (deploy_does_not_roll_back obliging sample_time))).
  repeat split.
Defined.

Lemma two_digit_fields : all_below (field_ok 2) 100 = true.
Proof. vm_compute. reflexivity. Qed.

Lemma four_digit_fields : all_below (field_ok 4) (N.to_nat 10000) = true.
Proof. vm_compute. reflexivity. Qed.

Lemma field_2 (n : N) :
  (n <= 99)%N ->
  String.length (zero_padded 2 n) = 2%nat /\ digits_value 0 (zero_padded 2 n) = n.
Proof.
  intros H. pose proof (all_below_spec _ _ two_digit_fields n ltac:(lia)) as F.
  unfold field_ok in F. apply andb_prop in F as [F1 F2].
  apply Nat.eqb_eq in F1. apply N.eqb_eq in F2. auto.
Qed.

Lemma field_4 (n : N) :
  (n <= 9999)%N ->
  String.length (zero_padded 4 n) = 4%nat /\ digits_value 0 (zero_padded 4 n) = n.
Proof.
  intros H. pose proof (all_below_spec _ _ four_digit_fields n ltac:(lia)) as F.
  unfold field_ok in F. apply andb_prop in F as [F1 F2].
  apply Nat.eqb_eq in F1. apply N.eqb_eq in F2. auto.
Qed.

(** Two concatenations with left parts of one length agree part by part. *)
Lemma append_inj (a a' b b' : string) :
  String.length a = String.length a' -> a ++ b = a' ++ b' -> a = a' /\ b = b'.
Proof.
  revert a'. induction a as [|c a IH]; intros [|c' a'] Hlen H; try discriminate Hlen.
  - auto.
  - cbn [append] in H. injection H as -> H. injection Hlen as Hlen.
    destruct (IH a' Hlen H) as [-> ->]. auto.
Qed.

Lemma append_empty (a : string) : a ++ EmptyString = a.
Proof.
  induction a as [|c a IH]; [reflexivity|].
  change (String c (a ++ EmptyString) = String c a). now rewrite IH.
Qed.

Lemma field_inj (width : nat) (m n : N) (rest rest' : string) :
  String.length (zero_padded width m) = width /\ digits_value 0 (zero_padded width m) = m ->
  String.length (zero_padded width n) = width /\ digits_value 0 (zero_padded width n) = n ->
  zero_padded width m ++ rest = zero_padded width n ++ rest' ->
  m = n /\ rest = rest'.
Proof.
  intros [Lm Vm] [Ln Vn] H.
  destruct (append_inj _ _ _ _ (eq_trans Lm (eq_sym Ln)) H) as [E ->].
  split; [|reflexivity]. rewrite <- Vm, <- Vn. now rewrite E.
Qed.

(** [strftime] tells apart any two moments that differ, to the second. *)
Lemma strftime_inj (t1 t2 : datetime) :
  valid t1 -> valid t2 -> strftime t1 = strftime t2 -> t1 = t2.
Proof.
  intros (Hy1 & Hm1 & Hd1 & Hh1 & Hmi1 & Hs1) (Hy2 & Hm2 & Hd2 & Hh2 & Hmi2 & Hs2) H.
  unfold strftime in H.
  apply field_inj in H as [Ey H]; [|apply field_4; lia|apply field_4; lia].
  cbn [append] in H. injection H as H.
  apply field_inj in H as [Em H]; [|apply field_2; lia|apply field_2; lia].
  cbn [append] in H. injection H as H.
  apply field_inj in H as [Ed H]; [|apply field_2; lia|apply field_2; lia].
  cbn [append] in H. injection H as H.
  apply field_inj in H as [Eh H]; [|apply field_2; lia|apply field_2; lia].
  cbn [append] in H. injection H as H.
  apply field_inj in H as [Emi H]; [|apply field_2; lia|apply field_2; lia].
  cbn [append] in H. injection H as H.
  rewrite <- (append_empty (zero_padded 2 (second t1))) in H.
  rewrite <- (append_empty (zero_padded 2 (second t2))) in H.
  apply field_inj in H as [Es _]; [|apply field_2; lia|apply field_2; lia].
  destruct t1, t2. cbn in *. congruence.
Qed.

(** X16. The names of a deployment are as distinct as its start time:
    two deployments get the same model name, or the same configuration
    name, or the same endpoint name, only if they start within the same
    second; and the three names of one deployment differ from one
    another. *)
Theorem names_differ_with_the_second (t1 t2 : datetime) :
  valid t1 -> valid t2 ->
  (model_name (strftime t1) = model_name (strftime t2) -> t1 = t2) /\
  (endpoint_config_name (strftime t1) = endpoint_config_name (strftime t2) -> t1 = t2) /\
  (endpoint_name (strftime t1) = endpoint_name (strftime t2) -> t1 = t2) /\
  model_name (strftime t1) <> endpoint_config_name (strftime t2) /\
  model_name (strftime t1) <> endpoint_name (strftime t2) /\
  endpoint_config_name (strftime t1) <> endpoint_name (strftime t2).
Proof.
  intros H1 H2. unfold model_name, endpoint_config_name, endpoint_name.
  repeat split.
  - intros H. cbn [append] in H. injection H as H. now apply strftime_inj.
  - intros H. cbn [append] in H. injection H as H. now apply strftime_inj.
  - intros H. cbn [append] in H. injection H as H. now apply strftime_inj.
  - intros H. cbn [append] in H. discriminate H.
  - intros H. cbn [append] in H. discriminate H.
  - intros H. cbn [append] in H. discriminate H.
Qed.

Lemma names_differ_with_the_second_witness :
  model_name (strftime sample_time)
  <> endpoint_name (strftime {| year := 2026; month := 11; day := 3;
                                hour := 17; minute := 26; second := 6 |}).
Proof.
  refine (proj1 (proj2 (proj2 (proj2 (proj2
            (names_differ_with_the_second sample_time
               {| year := 2026; month := 11; day := 3;
                  hour := 17; minute := 26; second := 6 |} _ _))))));
    unfold valid; cbn; lia.
Defined.

(** X17. [cleanup] undoes [deploy].  On a service that reports what was
    created, cleaning up the endpoint that a successful [deploy] returned
    deletes exactly the three resources that [deploy] created, in the
    reverse of the order of their creation, and creates nothing. *)
Theorem cleanup_undoes_deploy (sm : SageMaker) (now : datetime) :
  let ts := strftime now in
  fst (deploy sm now []) = Ret (endpoint_name ts) ->
  describe_endpoint sm (endpoint_name ts) = Ret (endpoint_config_name ts) ->
  describe_endpoint_config sm (endpoint_config_name ts) = Ret [model_name ts] ->
  delete_endpoint sm (endpoint_name ts) = Ret tt ->
  wait_endpoint_deleted sm (endpoint_name ts) = Ret tt ->
  delete_endpoint_config sm (endpoint_config_name ts) = Ret tt ->
  delete_model sm (model_name ts) = Ret tt ->
  fst (cleanup sm (endpoint_name ts) []) = Ret tt /\
  deleted (calls (snd (cleanup sm (endpoint_name ts) [])))
  = rev (created (calls (snd (deploy sm now [])))) /\
  created (calls (snd (cleanup sm (endpoint_name ts) []))) = [].
Proof.
  intros ts Hdeploy E1 E2 E3 E4 E5 E6.
  assert (created (calls (snd (deploy sm now [])))
          = [model_name ts; endpoint_config_name ts; endpoint_name ts]) as ->.
  { revert Hdeploy. unfold deploy. fold ts. unfold bind, api, print, ret. cbn [app].
    destruct (create_model sm (model_name ts)) as [[]|e1]; [|discriminate].
    destruct (create_endpoint_config sm (endpoint_config_name ts) (model_name ts))
      as [[]|e2]; [|discriminate].
    destruct (create_endpoint sm (endpoint_name ts) (endpoint_config_name ts))
      as [[]|e3]; [|discriminate].
    destruct (wait_endpoint_in_service sm (endpoint_name ts)) as [[]|e4]; [|discriminate].
    reflexivity. }
  unfold cleanup, cleanup_try, try_except, bind, api, print, lift, ret. cbn [app].
  rewrite E1, E2. cbn. rewrite E3, E4, E5, E6. cbn. auto.
Qed.

Lemma cleanup_undoes_deploy_witness :
  deleted (calls (snd (cleanup obliging (endpoint_name (strftime sample_time)) [])))
  = rev (created (calls (snd (deploy obliging sample_time [])))).
Proof.
  refine (proj1 (proj2 (cleanup_undoes_deploy obliging sample_time _ _ _ _ _ _ _)));
    reflexivity.
Defined.

(** X18. [cleanup] deletes nothing it cannot account for, and nothing
    out of order.  When the endpoint or its configuration cannot be
    described, or the configuration lists no variant, no delete request
    is sent at all; the configuration is deleted only after the deletion
    of the endpoint and the wait for it have succeeded; the model only
    after the deletion of the configuration has succeeded too. *)
Theorem cleanup_deletes_with_care (sm : SageMaker) (endpoint : string) :
  let sent := calls (snd (cleanup sm endpoint [])) in
  (forall e, describe_endpoint sm endpoint = Exc e -> deleted sent = []) /\
  (forall config,
     describe_endpoint sm endpoint = Ret config ->
     (forall model more, describe_endpoint_config sm config <> Ret (model :: more)) ->
     deleted sent = []) /\
  (forall name,
     In (DeleteEndpointConfig name) sent ->
     delete_endpoint sm endpoint = Ret tt /\ wait_endpoint_deleted sm endpoint = Ret tt) /\
  (forall name,
     In (DeleteModel name) sent ->
     delete_endpoint sm endpoint = Ret tt /\ wait_endpoint_deleted sm endpoint = Ret tt /\
     exists config, describe_endpoint sm endpoint = Ret config /\
                    delete_endpoint_config sm config = Ret tt).
Proof.
  cbv zeta.
  unfold cleanup, cleanup_try, try_except, bind, api, print, lift, ret. cbn [app].
  destruct (describe_endpoint sm endpoint) as [config|e1].
  2:{ cbn. repeat split; try discriminate; try reflexivity;
        intros; cbn in *; intuition discriminate. }
  destruct (describe_endpoint_config sm config) as [[|model more]|e2] eqn:E2.
  1,3: cbn; repeat split; try discriminate; try reflexivity;
       intros; cbn in *; intuition discriminate.
  cbn.
  destruct (delete_endpoint sm endpoint) as [[]|e3].
  2:{ cbn. repeat split; try discriminate;
        try (intros c [= <-] H; now destruct (H model more));
        intros; cbn in *; intuition discriminate. }
  destruct (wait_endpoint_deleted sm endpoint) as [[]|e4].
  2:{ cbn. repeat split; try discriminate;
        try (intros c [= <-] H; now destruct (H model more));
        intros; cbn in *; intuition discriminate. }
  destruct (delete_endpoint_config sm config) as [[]|e5] eqn:E5.
  2:{ cbn. repeat split; try discriminate; try reflexivity;
        try (intros c [= <-] H; now destruct (H model more));
        intros; cbn in *; intuition discriminate. }
  destruct (delete_model sm model) as [[]|e6];
    cbn; repeat split; try discriminate; try reflexivity;
      try (intros c [= <-] H; now destruct (H model more));
      eauto.
Qed.

Lemma cleanup_deletes_with_care_witness :
  delete_endpoint obliging "parakeet-asr-2026-11-03-17-26-05" = Ret tt /\
  wait_endpoint_deleted obliging "parakeet-asr-2026-11-03-17-26-05" = Ret tt.
Proof.
  refine (proj1 (proj2 (proj2 (cleanup_deletes_with_care obliging
                                 "parakeet-asr-2026-11-03-17-26-05")))
            "parakeet-config-2026-11-03-17-26-05" _).
  cbn. right. right. right. right. left. reflexivity.
Defined.

Lemma requests_app (a b : list action) :
  requests (a ++ b) = (requests a ++ requests b)%list.
Proof.
  induction a as [|[[c|l]|x y] a IH]; cbn [app requests]; auto.
  now rewrite IH.
Qed.

Lemma requests_managed (events : list event) : requests (map Managed events) = calls events.
Proof.
  induction events as [|[c|l] events IH]; cbn [map requests calls]; auto.
  now rewrite IH.
Qed.

Lemma managed_requests {A} (c : client A) :
  requests (snd (managed c [])) = calls (snd (c [])).
Proof.
  unfold managed. destruct (c []) as [r events]. cbn [snd app]. apply requests_managed.
Qed.

Lemma say_all_log (lines : list string) :
  forall log, exists log',
    say_all lines log = (Ret tt, log') /\ requests log' = requests log.
Proof.
  induction lines as [|line lines IH]; intros log; cbn [say_all].
  - exists log. auto.
  - unfold bind, say. destruct (IH (log ++ [Managed (Print line)])%list) as (log' & -> & E).
    exists log'. split; [reflexivity|].
    rewrite E, requests_app. cbn. apply app_nil_r.
Qed.

(** X19. The command line.  Without argument the tool deploys;
    [cleanup NAME] cleans up [NAME], further arguments unheeded; every
    other command line, [cleanup] without a name among them, sends
    neither creation nor deletion: [list] asks for the listing only, and
    any other word prints the usage. *)
Theorem command_line (sm : SageMaker) (listing : outcome (list (string * string)))
    (now : datetime) (prog : string) :
  requests (snd (main sm listing now [prog] [])) = calls (snd (deploy sm now [])) /\
  (forall name more,
     requests (snd (main sm listing now (prog :: "cleanup" :: name :: more) []))
     = calls (snd (cleanup sm name []))) /\
  (forall command arguments,
     command <> "cleanup" \/ arguments = [] ->
     requests (snd (main sm listing now (prog :: command :: arguments) [])) = [] /\
     (command <> "list" ->
      main sm listing now (prog :: command :: arguments) [] = usage [])).
Proof.
  split; [|split].
  - unfold main. cbn [length Nat.ltb Nat.leb].
    rewrite <- managed_requests. unfold bind, ret.
    now destruct (managed (deploy sm now) []) as [[name|e] log].
  - intros name more. unfold main. cbn [length Nat.ltb Nat.leb].
    unfold bind, lift. cbn [Py.index nth_error].
    change (String.eqb "cleanup" "cleanup") with true. cbn [andb].
    apply managed_requests.
  - intros command arguments Hcmd.
    assert (main sm listing now (prog :: command :: arguments) []
            = (if String.eqb command "list" then list_endpoints listing else usage) [])
      as ->.
    { unfold main.
      change ((1 <? length (prog :: command :: arguments))%nat) with true. cbv iota.
      unfold bind at 1. unfold lift at 1. cbn [Py.index nth_error].
      assert (String.eqb command "cleanup"
              && (2 <? length (prog :: command :: arguments))%nat = false) as ->.
      { destruct Hcmd as [H | ->].
        - apply String.eqb_neq in H. now rewrite H.
        - apply andb_false_r. }
      reflexivity. }
    destruct (String.eqb_spec command "list") as [->|Hlist].
    + split; [|intros H; now destruct H].
      unfold list_endpoints. unfold bind at 1.
      destruct listing as [eps|e]; [|reflexivity].
      unfold bind, say. cbn [app].
      destruct (say_all_log (map (fun ep => "  - " ++ fst ep ++ " (" ++ snd ep ++ ")") eps)
                  [ListEndpoints "parakeet" "InService";
                   Managed (Print "当前运行的 Parakeet 端点:")]) as (log' & -> & E).
      exact E.
    + split; [reflexivity | intros _; reflexivity].
Qed.

Lemma command_line_witness :
  requests (snd (main obliging (Ret []) sample_time ["deploy_parakeet.py"; "cleanup"] [])) = [].
Proof.
  refine (proj1 (proj2 (proj2 (command_line obliging (Ret []) sample_time "deploy_parakeet.py"))
                   "cleanup" [] _)).
  right. reflexivity.
Defined.

End DeployMore.


(** ** Loading the model and the health check *)

Module LifeMore.

Ltac life_run :=
  unfold ServeLife.load_model, ServeLife.warm_up, InferenceLife.model_fn,
    InferenceLife.swallow, write_and_transcribe, may_raise,
    create_file, store_file, remove_file, read_file,
    ServeLife.set_model, ServeLife.set_loaded, ServeLife.get_model, ServeLife.set_disk,
    InferenceLife.set_model, InferenceLife.set_device, InferenceLife.set_disk,
    try_except, try_finally, bind, lift, ret, raise;
  cbn [ServeLife.model ServeLife.model_loaded ServeLife.disk ServeLife.starting
       InferenceLife.model InferenceLife.device InferenceLife.disk InferenceLife.starting].

Ltac life_cases :=
  repeat match goal with
         | |- context [match ?x with _ => _ end] =>
             lazymatch x with
             | context [match _ with _ => _ end] => fail
             | _ => destruct x eqn:?
             end;
             cbn [ServeLife.model ServeLife.model_loaded ServeLife.disk
                  InferenceLife.model InferenceLife.device InferenceLife.disk]
         end.

(** X20. [/ping] follows [load_model]: a service that has not loaded
    answers 503, and after a call of [load_model] it answers 200 exactly
    when that call returned; a call that raised (the hub, the move to the
    device or [eval] failed) leaves it at 503.  [/] reports [healthy]
    exactly when [/ping] answers 200. *)
Theorem ping_follows_load_model (env : Startup) (s : ServeLife.service) :
  ServeLife.model_loaded s = false ->
  ServeLife.health_check s = 503%Z /\
  (ServeLife.health_check (snd (ServeLife.load_model env s)) = 200%Z <->
   exists m, fst (ServeLife.load_model env s) = Ret (Some m)) /\
  (forall s', dict_lookup "status" (ServeLife.root s') = Some (JStr "healthy") <->
              ServeLife.health_check s' = 200%Z).
Proof.
  intros Hs. split; [|split].
  - unfold ServeLife.health_check. now rewrite Hs.
  - destruct (ServeLife.load_model env s) as [r s'] eqn:E. revert E.
    life_run. rewrite Hs.
    life_cases; intros [= <- <-]; unfold ServeLife.health_check; cbn; try rewrite Hs;
      (split; [ intros H; first [discriminate H | now eauto]
              | intros [m' H]; first [discriminate H | reflexivity] ]).
  - intros s'. unfold ServeLife.health_check, ServeLife.root. cbn.
    destruct (ServeLife.model_loaded s'); split; intros H; try discriminate H; reflexivity.
Qed.

Lemma ping_follows_load_model_witness :
  ServeLife.health_check (snd (ServeLife.load_model Startups.offline (ServeLife.starting ∅)))
  <> 200%Z.
Proof.
  intros H.
  destruct (proj1 (proj1 (proj2 (ping_follows_load_model Startups.offline
                                   (ServeLife.starting ∅) eq_refl))) H) as [m Hm].
  discriminate Hm.
Defined.

(** X21. The warm-up of [load_model] cannot fail the start and leaves
    nothing behind: once the model is fetched, moved and set to
    evaluation, [load_model] returns it and flags the service as loaded,
    with the disk as it was, whether [soundfile] is missing, the write of
    the noise fails, or the model raises on it. *)
Theorem warm_up_is_harmless (env : Startup) (fs : gmap string (list byte)) (m : asr_model) :
  from_pretrained env MODEL_NAME = Ret m ->
  to_device env (device_of env) = None ->
  eval_error env = None ->
  fs !! warmup_name env = None ->
  ServeLife.load_model env (ServeLife.starting fs)
  = (Ret (Some m),
     {| ServeLife.model := Some m; ServeLife.model_loaded := true; ServeLife.disk := fs |}).
Proof.
  intros Hm Hto Heval Hfresh. life_run. rewrite Hm, Hto, Heval.
  destruct (soundfile_error env); [reflexivity|].
  destruct (sf_write_error env);
    cbn [ServeLife.model ServeLife.model_loaded ServeLife.disk].
  - now rewrite delete_insert_eq, (delete_id _ _ Hfresh).
  - rewrite lookup_insert_eq.
    destruct (m (warmup_wav env) false);
      cbn [ServeLife.model ServeLife.model_loaded ServeLife.disk];
      now rewrite !delete_insert_eq, (delete_id _ _ Hfresh).
Qed.

Lemma warm_up_is_harmless_witness :
  ServeLife.health_check (snd (ServeLife.load_model Startups.shaky (ServeLife.starting ∅)))
  = 200%Z.
Proof.
  rewrite (warm_up_is_harmless Startups.shaky ∅ (fun _ _ => Exc "CUDA out of memory")
             eq_refl eq_refl eq_refl (lookup_empty _)).
  reflexivity.
Defined.

(** X22. The model is loaded once: after a call of [load_model] that
    returned, every further call returns the same model and changes
    nothing, whatever the hub and the disk would do this time. *)
Theorem load_model_once (env env' : Startup) (s s' : ServeLife.service)
    (m : option asr_model) :
  ServeLife.load_model env s = (Ret m, s') ->
  ServeLife.load_model env' s' = (Ret m, s').
Proof.
  intros H.
  assert (ServeLife.model_loaded s' = true /\ ServeLife.model s' = m) as [Hl Hm].
  { revert H. life_run. destruct (ServeLife.model_loaded s) eqn:Hs.
    - intros [= <- <-]. auto.
    - life_cases; intros [= <- <-]; auto. }
  unfold ServeLife.load_model. now rewrite Hl, Hm.
Qed.

Lemma load_model_once_witness :
  ServeLife.load_model Startups.offline
    {| ServeLife.model := Some (transcribe Scenario.quiet);
       ServeLife.model_loaded := true; ServeLife.disk := ∅ |}
  = (Ret (Some (transcribe Scenario.quiet)),
     {| ServeLife.model := Some (transcribe Scenario.quiet);
        ServeLife.model_loaded := true; ServeLife.disk := ∅ |}).
Proof.
  apply (load_model_once Startups.sound Startups.offline (ServeLife.starting ∅)).
  vm_compute. reflexivity.
Defined.

(** X23. [/invocations] is not held back by the loading: a request that
    arrives before the model is there is decoded and written like any
    other and then answered 500, the global [model] being [None]; once
    [load_model] has returned, the same request is answered by the model
    that was loaded. *)
Theorem invocations_use_the_loaded_model (env : Startup) (w : World)
    (fs : gmap string (list byte)) (o : dict) (v : json) (data : list byte) :
  dict_lookup "audio" o = Some v ->
  truthy v = true ->
  truthy (timestamps_of o) = false ->
  (forall fs', Serve.process_audio w v (frame0 fs') = (Ret (Some data), frame0 fs')) ->
  write_error w data = None ->
  fst (ServeLife.invocations (ServeLife.starting fs) w (Serve.json_request (JObj o)))
  = Ret (Serve.jsonify
           [("error", JStr "'NoneType' object has no attribute 'transcribe'")] 500) /\
  (forall m s',
     ServeLife.load_model env (ServeLife.starting fs) = (Ret (Some m), s') ->
     fst (ServeLife.invocations s' w (Serve.json_request (JObj o)))
     = Ret (match m data false with
            | Ret out =>
                Serve.jsonify
                  [("text", JStr (match text out with Some t => t | None => as_str out end));
                   ("processing_time", JFloat (round3 (time_end w - time_start w)));
                   ("model", JStr MODEL_NAME)] 200
            | Exc e => Serve.jsonify [("error", JStr e)] 500
            end)).
Proof.
  intros Hv Ht Hts Hdec Hw. split.
  - unfold ServeLife.invocations.
    rewrite (HandlerMore.invoke_after_decode (ServeLife.serving (ServeLife.starting fs) w)
               o _ v data Hv Ht (Hdec _) Hw).
    cbv zeta. rewrite Hts. reflexivity.
  - intros m s' Hload.
    assert (ServeLife.model s' = Some m) as Hm.
    { revert Hload. life_run. life_cases; intros [= <- <-]; reflexivity. }
    unfold ServeLife.invocations.
    rewrite (HandlerMore.invoke_after_decode (ServeLife.serving s' w)
               o _ v data Hv Ht (Hdec _) Hw).
    cbv zeta. rewrite Hts. unfold ServeLife.serving. cbn [transcribe time_end time_start].
    rewrite Hm. now destruct (m data false).
Qed.

Lemma invocations_use_the_loaded_model_witness :
  fst (ServeLife.invocations (ServeLife.starting ∅) Scenario.quiet
         (Serve.json_request (JObj Scenario.plain_request)))
  = Ret (Serve.jsonify
           [("error", JStr "'NoneType' object has no attribute 'transcribe'")] 500).
Proof.
  refine (proj1 (invocations_use_the_loaded_model Startups.sound Scenario.quiet ∅
                   Scenario.plain_request (JStr "data:audio/wav;base64,AAAA")
                   [x00; x00; x00] _ _ _ _ _)); try reflexivity.
Defined.

(** X24. The warm-up of [model_fn] is guarded less than that of
    [load_model].  Once the model is fetched, moved and set to
    evaluation and [soundfile] is there: when the noise is written,
    [model_fn] returns the model and leaves the disk as it was, whatever
    the model does on the noise; when the write raises, [model_fn] ends
    with that exception and the empty warm-up file stays on disk. *)
Theorem model_fn_warm_up (env : Startup) (model_dir : string)
    (fs : gmap string (list byte)) (m : asr_model) :
  from_pretrained env MODEL_NAME = Ret m ->
  to_device env (device_of env) = None ->
  eval_error env = None ->
  soundfile_error env = None ->
  fs !! warmup_name env = None ->
  (sf_write_error env = None ->
   InferenceLife.model_fn env model_dir (InferenceLife.starting fs)
   = (Ret m, {| InferenceLife.model := Some m;
                InferenceLife.device := Some (device_of env);
                InferenceLife.disk := fs |})) /\
  (forall e, sf_write_error env = Some e ->
   InferenceLife.model_fn env model_dir (InferenceLife.starting fs)
   = (Exc e, {| InferenceLife.model := Some m;
                InferenceLife.device := Some (device_of env);
                InferenceLife.disk := <[warmup_name env := []]> fs |})).
Proof.
  intros Hm Hto Heval Hsf Hfresh. split.
  - intros Hwrite. life_run. rewrite Hm, Hto, Heval, Hsf, Hwrite.
    cbn [InferenceLife.model InferenceLife.device InferenceLife.disk].
    rewrite lookup_insert_eq.
    destruct (m (warmup_wav env) false);
      cbn [InferenceLife.model InferenceLife.device InferenceLife.disk];
      now rewrite !delete_insert_eq, (delete_id _ _ Hfresh).
  - intros e Hwrite. life_run. now rewrite Hm, Hto, Heval, Hsf, Hwrite.
Qed.

Lemma model_fn_warm_up_witness :
  fst (InferenceLife.model_fn Startups.shaky "/opt/ml/model" (InferenceLife.starting ∅))
  = Exc "[Errno 28] No space left on device".
Proof.
  rewrite (proj2 (model_fn_warm_up Startups.shaky "/opt/ml/model" ∅
                    (fun _ _ => Exc "CUDA out of memory")
                    eq_refl eq_refl eq_refl eq_refl (lookup_empty _))
             "[Errno 28] No space left on device" eq_refl).
  reflexivity.
Defined.

End LifeMore.


(** ** The reported processing time *)

From Stdlib Require Import Lqa.

Module ClockMore.




End ClockMore.
